(** * bluesky-kafka: a shallow embedding of the producer and consumer classes

    The development follows the two modules of the package:

    - [bluesky_kafka/produce.py]: [BasicProducer] (configuration merge in
      [__init__], redacted rendering in [__str__]);
    - [bluesky_kafka/kafka.py]: [Publisher] and [RemoteDispatcher]
      ([__init__], [_poll], [start], [stop]).

    Python values are modelled by a small inductive type, dictionaries by
    insertion-ordered association lists (the rendering of a dictionary
    depends on the insertion order), exceptions by a class tag and a
    message, and the calls made on the external collaborators (the
    confluent-kafka client, the [logging] module, the subscribed
    callbacks) by a trace of events. *)

From Stdlib Require Import List String Ascii Bool ZArith Lia Arith.
From Stdlib Require Import Strings.Byte DecimalString.
Import ListNotations.

Local Open Scope string_scope.
Local Open Scope list_scope.

Set Implicit Arguments.

(* ===================================================================== *)
(** * Python strings *)
(* ===================================================================== *)

Module PyStr.

Local Open Scope string_scope.

(** [sep.join(l)] *)
Fixpoint join (sep : string) (l : list string) : string :=
  match l with
  | [] => EmptyString
  | [x] => x
  | x :: (_ :: _) as rest => x ++ sep ++ join sep rest
  end.

(** [s.split(c)] for a one-character separator [c]: the result is never
    empty, and an empty field is kept (splitting [,a] gives an empty field and [a]). *)
Fixpoint split (c : ascii) (s : string) : list string :=
  match s with
  | EmptyString => [EmptyString]
  | String a s' =>
      if Ascii.eqb a c then EmptyString :: split c s'
      else match split c s' with
           | [] => [String a EmptyString]
           | field :: fields => String a field :: fields
           end
  end.

(** [s.startswith(p)] *)
Fixpoint startswith (p s : string) : bool :=
  match p, s with
  | EmptyString, _ => true
  | String _ _, EmptyString => false
  | String a p', String b s' => Ascii.eqb a b && startswith p' s'
  end.

(** [needle in hay] *)
Fixpoint contains (needle hay : string) : bool :=
  startswith needle hay
  || match hay with
     | EmptyString => false
     | String _ hay' => contains needle hay'
     end.

(** The relational reading of [needle in hay]. *)
Definition Substring (needle hay : string) : Prop :=
  exists pre post, hay = pre ++ needle ++ post.

Definition hexdigit (n : nat) : ascii :=
  match n with
  | 0 => "0" | 1 => "1" | 2 => "2" | 3 => "3" | 4 => "4" | 5 => "5"
  | 6 => "6" | 7 => "7" | 8 => "8" | 9 => "9" | 10 => "a" | 11 => "b"
  | 12 => "c" | 13 => "d" | 14 => "e" | _ => "f"
  end%char.

(** [\xNN], two lower-case hexadecimal digits. *)
Definition hex_escape (a : ascii) : string :=
  let n := nat_of_ascii a in
  String "\" (String "x" (String (hexdigit (n / 16)) (String (hexdigit (n mod 16)) EmptyString))).

(** Characters are code points below 256.  [repr] copies a code point
    when it is printable: the ASCII range 0x20..0x7e, and 0xa1..0xff
    except the soft hyphen 0xad. *)
Definition printable (a : ascii) : bool :=
  let n := nat_of_ascii a in
  ((32 <=? n)%nat && (n <? 127)%nat) || ((161 <=? n)%nat && negb (n =? 173)%nat).

Definition repr_char (quote a : ascii) : string :=
  if Ascii.eqb a quote || Ascii.eqb a "\" then String "\" (String a EmptyString)
  else if Ascii.eqb a "009" then "\t"
  else if Ascii.eqb a "010" then "\n"
  else if Ascii.eqb a "013" then "\r"
  else if printable a then String a EmptyString
  else hex_escape a.

Fixpoint mem_char (c : ascii) (s : string) : bool :=
  match s with
  | EmptyString => false
  | String a s' => Ascii.eqb a c || mem_char c s'
  end.

Fixpoint repr_body (quote : ascii) (s : string) : string :=
  match s with
  | EmptyString => EmptyString
  | String a s' => repr_char quote a ++ repr_body quote s'
  end.

Definition dquote : ascii := "034"%char.

(** [repr(s)]: single quotes, unless the string has a single quote and no
    double quote. *)
Definition repr (s : string) : string :=
  let quote : ascii :=
    if mem_char "'" s && negb (mem_char dquote s) then dquote else "'"%char in
  String quote (repr_body quote s ++ String quote EmptyString).

End PyStr.

(* ===================================================================== *)
(** * Python values, dictionaries and exceptions *)
(* ===================================================================== *)

Module Py.

Local Open Scope string_scope.

(** The values that configuration dictionaries and decoded documents are
    made of.  Floats are left out. *)
#[local] Unset Elimination Schemes.
Inductive PyVal : Type :=
| VNone
| VBool (b : bool)
| VInt (z : Z)
| VStr (s : string)
| VList (items : list PyVal)
| VTuple (items : list PyVal)
| VDict (entries : list (PyVal * PyVal)).
#[local] Set Elimination Schemes.

(** [repr(v)]; inside an f-string, [str] of a list or of a dictionary is
    its [repr]. *)
Fixpoint repr (v : PyVal) : string :=
  match v with
  | VNone => "None"
  | VBool true => "True"
  | VBool false => "False"
  | VInt z => NilZero.string_of_int (Z.to_int z)
  | VStr s => PyStr.repr s
  | VList items => "[" ++ PyStr.join ", " (map repr items) ++ "]"
  | VTuple items =>
      match items with
      | [x] => "(" ++ repr x ++ ",)"
      | _ => "(" ++ PyStr.join ", " (map repr items) ++ ")"
      end
  | VDict entries =>
      "{" ++ PyStr.join ", "
               (map (fun kv => match kv with
                               | (k, x) => repr k ++ ": " ++ repr x
                               end) entries)
          ++ "}"
  end.

(** [str(v)]: a string is itself, everything else is its [repr]. *)
Definition str (v : PyVal) : string :=
  match v with
  | VStr s => s
  | _ => repr v
  end.

(** [hash(v)] succeeds: lists and dictionaries have no hash, and a
    tuple has one when all its items have. *)
Fixpoint hashable (v : PyVal) : bool :=
  match v with
  | VList _ | VDict _ => false
  | VTuple items => forallb hashable items
  | VNone | VBool _ | VInt _ | VStr _ => true
  end.

(** Exception classes.  The last three derive from [BaseException] but
    not from [Exception]; [UserError] stands for any other subclass of
    [Exception] (for instance [pickle.UnpicklingError]). *)
Inductive ExcClass : Type :=
| RuntimeError
| TypeError
| ValueError
| KeyError
| AttributeError
| UserError (name : string)
| KeyboardInterrupt
| SystemExit
| GeneratorExit.

Record PyExc : Type := mkExc { exc_class : ExcClass; exc_message : string }.

(** [isinstance(e, Exception)], the test made by [except Exception:]. *)
Definition isinstance_Exception (e : PyExc) : bool :=
  match exc_class e with
  | KeyboardInterrupt | SystemExit | GeneratorExit => false
  | _ => true
  end.

(** The result of a call that has finished: a value or a raised
    exception. *)
Definition result (A : Type) : Type := (PyExc + A)%type.

End Py.

(** A [dict] with string keys keeps its entries in insertion order;
    assigning to a key that is present keeps the key's position. *)
Module Dict.

Import Py.

Definition t : Type := list (string * PyVal).

(** [d[k]], [None] standing for [KeyError] *)
Fixpoint get (k : string) (d : t) : option PyVal :=
  match d with
  | [] => None
  | (k', v) :: d' => if String.eqb k k' then Some v else get k d'
  end.

(** [k in d] *)
Definition mem (k : string) (d : t) : bool :=
  match get k d with
  | Some _ => true
  | None => false
  end.

(** [d[k] = v] *)
Fixpoint set (k : string) (v : PyVal) (d : t) : t :=
  match d with
  | [] => [(k, v)]
  | (k', v') :: d' =>
      if String.eqb k k' then (k', v) :: d' else (k', v') :: set k v d'
  end.

(** [d.update(other)] *)
Definition update (d other : t) : t :=
  fold_left (fun acc kv => set (fst kv) (snd kv) acc) other d.

(** [dict(d)], a copy: the model has values, so the copy is the value. *)
Definition copy (d : t) : t := d.

Local Open Scope string_scope.

(** [repr(d)] *)
Definition repr (d : t) : string :=
  "{" ++ PyStr.join ", "
           (map (fun kv => PyStr.repr (fst kv) ++ ": " ++ Py.repr (snd kv)) d)
      ++ "}".

End Dict.

(* ===================================================================== *)
(** * produce.py *)
(* ===================================================================== *)

Module Produce.

Import Py.

(** Calls made on the collaborators while a producer is built. *)
Inductive Event : Type :=
| LoggerDebug (producer_config : Dict.t)
| ConfluentProducer (producer_config : Dict.t).

(** The [bootstrap_servers] argument: [__init__] tells a [str] from the
    sequence it expects.  The sequences of strings are the list, on
    which [extend] works, and the tuple, which has no [extend]. *)
Inductive ServersArg : Type :=
| OfStr (s : string)
| OfList (servers : list string)
| OfTuple (servers : list string).

Inductive DeliveryCallback : Type :=
| default_delivery_report
| user_callback (name : string).

Module BasicProducer.

Local Open Scope string_scope.

(** The attributes set by [__init__].  [_bootstrap_servers] is the very
    object that was passed in: a list, extended in place, or a tuple,
    which [_servers_are_tuple] records. *)
Record obj : Type := mk {
  topic : string;
  _bootstrap_servers : list string;
  _key : option string;
  _producer_config : Dict.t;
  on_delivery : DeliveryCallback;
  _servers_are_tuple : bool
}.

Definition not_a_sequence : PyExc :=
  mkExc TypeError "parameter `bootstrap_servers` must be a sequence of str, not str".

Definition no_split (v : PyVal) : PyExc :=
  mkExc AttributeError "object has no attribute 'split'".

Definition no_extend : PyExc :=
  mkExc AttributeError "'tuple' object has no attribute 'extend'".

(** [self._producer_config = dict()], updated with [producer_config]
    when it is not [None]. *)
Definition own_config (producer_config : option Dict.t) : Dict.t :=
  match producer_config with
  | Some pc => Dict.update [] pc
  | None => []
  end.

(** The servers named by the configuration itself. *)
Definition extra_servers (cfg : Dict.t) : list string :=
  match Dict.get "bootstrap.servers" cfg with
  | Some (VStr s) => PyStr.split "," s
  | _ => []
  end.

(** [bootstrap_servers.extend(self._producer_config["bootstrap.servers"].split(","))]
    when the key is present. *)
Definition combine (servers : list string) (cfg : Dict.t) : result (list string) :=
  match Dict.get "bootstrap.servers" cfg with
  | Some (VStr s) => inr (servers ++ PyStr.split "," s)%list
  | Some v => inl (no_split v)
  | None => inr servers
  end.

(** [BasicProducer.__init__]; the constructor of the client library is
    taken to return. *)
Definition __init__ (topic : string) (bootstrap_servers : ServersArg)
    (key : option string) (producer_config : option Dict.t)
    (on_delivery : option DeliveryCallback) : result obj * list Event :=
  let cfg := own_config producer_config in
  match bootstrap_servers with
  | OfStr _ => (inl not_a_sequence, [])
  | OfList servers =>
      match combine servers cfg with
      | inl e => (inl e, [])
      | inr servers' =>
          let cfg' := Dict.set "bootstrap.servers"
                               (VStr (PyStr.join "," servers')) cfg in
          (inr {| topic := topic;
                  _bootstrap_servers := servers';
                  _key := key;
                  _producer_config := cfg';
                  on_delivery := match on_delivery with
                                 | None => default_delivery_report
                                 | Some f => f
                                 end;
                  _servers_are_tuple := false |},
           [LoggerDebug cfg'; ConfluentProducer cfg'])
      end
  | OfTuple servers =>
      if Dict.mem "bootstrap.servers" cfg then (inl no_extend, [])
      else
        let cfg' := Dict.set "bootstrap.servers"
                             (VStr (PyStr.join "," servers)) cfg in
        (inr {| topic := topic;
                _bootstrap_servers := servers;
                _key := key;
                _producer_config := cfg';
                on_delivery := match on_delivery with
                               | None => default_delivery_report
                               | Some f => f
                               end;
                _servers_are_tuple := true |},
         [LoggerDebug cfg'; ConfluentProducer cfg'])
  end.

Definition class_name : string := "<class 'bluesky_kafka.produce.BasicProducer'>".

(** The one key whose value [__str__] replaces, and what it puts there. *)
Definition masked_key : string := "sasl.password".
Definition mask : PyVal := VStr "****".

Definition safe_config (self : obj) : Dict.t :=
  let safe := Dict.copy (_producer_config self) in
  if Dict.mem masked_key safe then Dict.set masked_key mask safe else safe.

Definition str_key (k : option string) : string :=
  match k with
  | Some s => s
  | None => "None"
  end.

(** [BasicProducer.__str__] *)
Definition __str__ (self : obj) : string :=
  class_name ++ "("
    ++ "topic='" ++ topic self ++ "',"
    ++ "key='" ++ str_key (_key self) ++ "',"
    ++ "bootstrap_servers='"
    ++ Py.repr (if _servers_are_tuple self
                then VTuple (map VStr (_bootstrap_servers self))
                else VList (map VStr (_bootstrap_servers self))) ++ "'"
    ++ "producer_config='" ++ Dict.repr (safe_config self) ++ "'"
    ++ ")".

(** The same producer with another value under the masked key. *)
Definition with_password (v : PyVal) (self : obj) : obj :=
  {| topic := topic self;
     _bootstrap_servers := _bootstrap_servers self;
     _key := _key self;
     _producer_config := Dict.set masked_key v (_producer_config self);
     on_delivery := on_delivery self;
     _servers_are_tuple := _servers_are_tuple self |}.

End BasicProducer.

End Produce.

(* ===================================================================== *)
(** * kafka.py *)
(* ===================================================================== *)

Module Kafka.

Import Py.

Definition bytes : Type := list byte.

(** [confluent_kafka.KafkaError]; any error object is true in the test
    [elif msg.error():]. *)
Record KafkaError : Type := mkError { code : Z; reason : string }.

(** What [Consumer.poll] hands back when it is not [None]. *)
Record Message : Type := mkMessage {
  topic : string;
  partition : Z;
  key : option bytes;
  value : bytes;
  error : option KafkaError
}.

(** Calls made on the collaborators, in program order. *)
Inductive Event : Type :=
| LoggerInfoConfig (consumer_config : Dict.t)
| LoggerInfoTopics (topics : list string)
| NewConsumer (consumer_config : Dict.t)
| Subscribe (topics : list string)
| NewProducer (producer_config : Dict.t)
| Print (text : string)
| Produce (topic : string) (key : PyVal) (value : bytes)
| Poll
| LoggerError (err : KafkaError)
| Deserialize (value : bytes)
| LoggerDebug (topic : string) (name doc : PyVal)
| Process (member : string) (doc : PyVal)
| Close.

Module Publisher.

Record obj : Type := mk {
  topic : string;
  producer_config : Dict.t
}.

(** [Publisher.__init__]: the defaults first, then
    [self.producer_config.update(producer_config)]. *)
Definition __init__ (topic : string) (bootstrap_servers : string)
    (producer_config : option Dict.t) : obj * list Event :=
  let defaults : Dict.t :=
    [("bootstrap.servers", VStr bootstrap_servers);
     ("enable.idempotence", VBool true)] in
  let cfg :=
    match producer_config with
    | Some pc => Dict.update defaults pc
    | None => defaults
    end in
  ({| topic := topic; producer_config := cfg |}, [NewProducer cfg]).

(** [Publisher.__call__(name, doc, key)] with the serializer given at
    construction (by default [pickle.dumps]). *)
Definition __call__ (serializer : PyVal -> result bytes) (self : obj)
    (name doc key : PyVal) : option PyExc * list Event :=
  let text := ("KafkaProducer(topic=" ++ topic self ++ " key=" ++ Py.str key
               ++ " msg=[name=" ++ Py.str name ++ " doc=" ++ Py.str doc ++ "])")%string in
  match serializer (VTuple [name; doc]) with
  | inl e => (Some e, [Print text])
  | inr payload => (None, [Print text; Produce (topic self) key payload])
  end.

End Publisher.

(** How a call stands when it is observed: it has returned, it has
    raised, or it is still inside its loop. *)
Inductive Outcome : Type :=
| Returned
| Raised (e : PyExc)
| Running.

Module RemoteDispatcher.

(** The target list [name, doc = ...]: the right-hand side is iterated
    and must yield exactly two items. *)
Definition unpack_pair (v : PyVal) : result (PyVal * PyVal) :=
  let exactly_two (items : list PyVal) : result (PyVal * PyVal) :=
    match items with
    | [a; b] => inr (a, b)
    | [] | [_] => inl (mkExc ValueError "not enough values to unpack (expected 2)")
    | _ => inl (mkExc ValueError "too many values to unpack (expected 2)")
    end in
  match v with
  | VTuple items | VList items => exactly_two items
  | VDict entries => exactly_two (map fst entries)
  | VStr s => exactly_two (map (fun c => VStr (String c EmptyString)) (list_ascii_of_string s))
  | VNone | VBool _ | VInt _ => inl (mkExc TypeError "cannot unpack non-iterable object")
  end.

Section Collaborators.

(** The state of whatever is subscribed to the dispatcher. *)
Variable U : Type.

(** The deserializer given at construction (by default [pickle.loads]). *)
Variable deserializer : bytes -> result PyVal.

(** The member names of [bluesky.run_engine.DocumentNames]. *)
Variable DocumentNames : list string.

(** [Dispatcher.process(member, doc)], inherited from bluesky: it runs
    the subscribed callbacks, which may raise. *)
Variable process : U -> string -> PyVal -> U * option PyExc.

(** What the broker has for the n-th call of [self.consumer.poll(1.0)];
    [None] is a poll that timed out. *)
Variable broker : nat -> option Message.

(** [closed], the number of polls the client has served, and the state
    of the subscribers. *)
Record obj : Type := mk {
  closed : bool;
  polls : nat;
  subscribers : U
}.

(** [RemoteDispatcher.__init__]: the arguments are written over the
    entries of [consumer_config]. *)
Definition __init__ (topics : list string) (bootstrap_servers : PyVal)
    (group_id : option string) (auto_offset_reset : string)
    (consumer_config : option Dict.t) (subscribers0 : U) : obj * list Event :=
  let cfg0 := match consumer_config with Some c => c | None => [] end in
  let cfg1 := Dict.update cfg0 [("bootstrap.servers", bootstrap_servers);
                                ("auto.offset.reset", VStr auto_offset_reset)] in
  let cfg2 := match group_id with
              | Some g => Dict.set "group.id" (VStr g) cfg1
              | None => cfg1
              end in
  ({| closed := false; polls := 0; subscribers := subscribers0 |},
   [LoggerInfoConfig cfg2; LoggerInfoTopics topics; NewConsumer cfg2; Subscribe topics]).

(** [DocumentNames[name]]: the members are looked up by name. *)
Definition lookup_member (name : PyVal) : result string :=
  match name with
  | VStr s => if existsb (String.eqb s) DocumentNames then inr s
              else inl (mkExc KeyError s)
  | _ => if hashable name then inl (mkExc KeyError (Py.repr name))
         else inl (mkExc TypeError "unhashable type")
  end.

(** The branch of [_poll] for a message without error. *)
Definition handle (self : obj) (msg : Message) : option PyExc * obj * list Event :=
  match deserializer (value msg) with
  | inl e => (Some e, self, [Deserialize (value msg)])
  | inr decoded =>
      match unpack_pair decoded with
      | inl e => (Some e, self, [Deserialize (value msg)])
      | inr (name, doc) =>
          let logged := [Deserialize (value msg); LoggerDebug (topic msg) name doc] in
          match lookup_member name with
          | inl e => (Some e, self, logged)
          | inr member =>
              let (subscribers', raised) := process (subscribers self) member doc in
              (raised,
               {| closed := closed self; polls := polls self; subscribers := subscribers' |},
               logged ++ [Process member doc])
          end
      end
  end.

(** The state after the call of [self.consumer.poll]. *)
Definition polled (self : obj) : obj :=
  {| closed := closed self; polls := S (polls self); subscribers := subscribers self |}.

(** One turn of the [while True:] loop of [_poll]: the exception that
    leaves the loop, if any. *)
Definition iteration (self : obj) : option PyExc * obj * list Event :=
  match broker (polls self) with
  | None => (None, polled self, [Poll])
  | Some msg =>
      match error msg with
      | Some err => (None, polled self, [Poll; LoggerError err])
      | None =>
          let '(raised, self', events) := handle (polled self) msg in
          (raised, self', Poll :: events)
      end
  end.

(** [RemoteDispatcher._poll], observed after at most [turns] turns of
    its loop.  The loop has no [break] and no [return]. *)
Fixpoint _poll (turns : nat) (self : obj) : Outcome * obj * list Event :=
  match turns with
  | 0 => (Running, self, [])
  | S turns' =>
      match iteration self with
      | (Some e, self', events) => (Raised e, self', events)
      | (None, self', events) =>
          let '(outcome, self'', events') := _poll turns' self' in
          (outcome, self'', events ++ events')
      end
  end.

(** [RemoteDispatcher.stop] *)
Definition stop (self : obj) : obj * list Event :=
  ({| closed := true; polls := polls self; subscribers := subscribers self |},
   [Close]).

(** The message ends with [repr(self)], which holds an address; the
    placeholder is kept in its place. *)
Definition already_stopped : PyExc :=
  mkExc RuntimeError
        "This RemoteDispatcher has already been started and interrupted. Create a fresh instance with {}".

(** [RemoteDispatcher.start] *)
Definition start (turns : nat) (self : obj) : Outcome * obj * list Event :=
  if closed self then (Raised already_stopped, self, [])
  else
    match _poll turns self with
    | (Raised e, self', events) =>
        if isinstance_Exception e then
          let (self'', events') := stop self' in
          (Raised e, self'', events ++ events')
        else (Raised e, self', events)
    | other => other
    end.

(** The public methods, called one after the other by the owner of the
    dispatcher. *)
Inductive Call : Type :=
| call_start (turns : nat)
| call_stop.

Definition call (c : Call) (self : obj) : Outcome * obj * list Event :=
  match c with
  | call_start turns => start turns self
  | call_stop => let (self', events) := stop self in (Returned, self', events)
  end.

(** A sequence of calls; a call that is still running keeps the thread,
    and nothing is called after it. *)
Fixpoint calls (cs : list Call) (self : obj) : obj * list Event :=
  match cs with
  | [] => (self, [])
  | c :: cs' =>
      match call c self with
      | (Running, self', events) => (self', events)
      | (_, self', events) =>
          let (self'', events') := calls cs' self' in
          (self'', events ++ events')
      end
  end.

(** ** Observations used to state the properties *)

(** A poll result that carries a message without error. *)
Definition valid (r : option Message) : bool :=
  match r with
  | Some msg => match error msg with None => true | Some _ => false end
  | None => false
  end.

(** The member and the document a message stands for, when its payload
    decodes to a pair whose first item names a member. *)
Definition decode (msg : Message) : option (string * PyVal) :=
  match deserializer (value msg) with
  | inl _ => None
  | inr decoded =>
      match unpack_pair decoded with
      | inl _ => None
      | inr (name, doc) =>
          match lookup_member name with
          | inl _ => None
          | inr member => Some (member, doc)
          end
      end
  end.

(** The documents the valid messages of a list of poll results stand for. *)
Fixpoint documents (results : list (option Message)) : list (string * PyVal) :=
  match results with
  | [] => []
  | Some msg :: rest =>
      match error msg, decode msg with
      | None, Some d => d :: documents rest
      | _, _ => documents rest
      end
  | None :: rest => documents rest
  end.

(** The [closed] flag after each call of a sequence that was completed
    or started. *)
Fixpoint flags (cs : list Call) (self : obj) : list bool :=
  match cs with
  | [] => []
  | c :: cs' =>
      match call c self with
      | (Running, self', _) => [closed self']
      | (_, self', _) => closed self' :: flags cs' self'
      end
  end.

End Collaborators.

(** The arguments of the calls of [process] in a trace. *)
Fixpoint dispatched (events : list Event) : list (string * PyVal) :=
  match events with
  | [] => []
  | Process member doc :: rest => (member, doc) :: dispatched rest
  | _ :: rest => dispatched rest
  end.

Definition is_poll (e : Event) : bool :=
  match e with Poll => true | _ => false end.

Definition is_close (e : Event) : bool :=
  match e with Close => true | _ => false end.

Definition is_deserialize (e : Event) : bool :=
  match e with Deserialize _ => true | _ => false end.

Definition is_process (e : Event) : bool :=
  match e with Process _ _ => true | _ => false end.

(** How many times a list of flags goes from [a] to [b], starting from
    the flag [prev]. *)
Fixpoint transitions (a b prev : bool) (l : list bool) : nat :=
  match l with
  | [] => 0
  | x :: l' =>
      (if Bool.eqb prev a && Bool.eqb x b then 1 else 0) + transitions a b x l'
  end.

End RemoteDispatcher.

End Kafka.

(* ===================================================================== *)
(** * Sample collaborators *)
(* ===================================================================== *)

(** Concrete collaborators, used to run the definitions on examples. *)
Module Sample.

Import Py Kafka.

(** The members of [DocumentNames] in bluesky. *)
Definition document_names : list string :=
  ["stop"; "start"; "descriptor"; "event"; "datum"; "resource";
   "event_page"; "datum_page"; "bulk_datum"; "bulk_events"]%string.

(** A deserializer in the place of [pickle.loads]: one byte selects the
    document; any other payload is malformed. *)
Definition loads (payload : bytes) : result PyVal :=
  match payload with
  | [x00] => inr (VTuple [VStr "start"; VDict [(VStr "uid", VStr "a1")]])
  | [x01] => inr (VTuple [VStr "event"; VDict [(VStr "seq_num", VInt 1)]])
  | [x02] => inr (VTuple [VStr "stop"; VDict [(VStr "exit_status", VStr "success")]])
  | [x03] => inr (VTuple [VStr "report"; VDict []])
  | _ => inl (mkExc (UserError "UnpicklingError") "invalid load key")
  end%byte.

(** Subscribers that keep what they are given. *)
Definition keep (seen : list (string * PyVal)) (member : string) (doc : PyVal)
  : list (string * PyVal) * option PyExc :=
  (seen ++ [(member, doc)], None).

(** Subscribers that leave the interpreter at the stop document. *)
Definition exit_at_stop (seen : list (string * PyVal)) (member : string) (doc : PyVal)
  : list (string * PyVal) * option PyExc :=
  (seen ++ [(member, doc)],
   if String.eqb member "stop" then Some (mkExc SystemExit "0") else None).

(** A broker that serves a finite list of results and then times out. *)
Definition serve (results : list (option Message)) : nat -> option Message :=
  fun n => nth n results None.

Definition message (t : string) (payload : bytes) : Message :=
  {| topic := t; partition := 0; key := None; value := payload; error := None |}.

Definition broker_error (t : string) : Message :=
  {| topic := t; partition := 0; key := None; value := [];
     error := Some {| code := -195; reason := "Broker transport failure" |} |}.

(** The configuration of [test_producer_config]. *)
Definition test_producer_config : Dict.t :=
  [("bootstrap.servers", VStr "5.6.7.8:9092");
   ("acks", VInt 1);
   ("enable.idempotence", VBool false);
   ("request.timeout.ms", VInt 5000)]%string.

(** The producer of [test_redact_password_from_str_output], with its
    servers in a list. *)
Definition redacted_producer : Produce.BasicProducer.obj :=
  {| Produce.BasicProducer.topic := "test.redact.password";
     Produce.BasicProducer._bootstrap_servers := ["1.2.3.4:9092"%string];
     Produce.BasicProducer._key := Some "test.redact.password"%string;
     Produce.BasicProducer._producer_config :=
       [("sasl.password", VStr "PASSWORD");
        ("bootstrap.servers", VStr "1.2.3.4:9092")]%string;
     Produce.BasicProducer.on_delivery := Produce.default_delivery_report;
     Produce.BasicProducer._servers_are_tuple := false |}.

(** A configuration with other SASL settings. *)
Definition oauth_config : Dict.t :=
  [("sasl.mechanisms", VStr "OAUTHBEARER");
   ("sasl.username", VStr "alice");
   ("sasl.oauthbearer.client.secret", VStr "S3CRET")]%string.

(** Three documents among timeouts and a broker error. *)
Definition results : list (option Message) :=
  [None;
   Some (message "exp.topic" [x00]);
   Some (broker_error "exp.topic");
   Some (message "exp.topic" [x01]);
   None;
   Some (message "exp.topic" [x02])]%byte.

(** A stop document and nothing after it. *)
Definition last_document : list (option Message) :=
  [Some (message "exp.topic" [x02])]%byte.

(** A document, then a payload that does not decode. *)
Definition faulty : list (option Message) :=
  [None;
   Some (message "exp.topic" [x00]);
   Some (message "exp.topic" [x09])]%byte.

Definition malformed : PyExc := mkExc (UserError "UnpicklingError") "invalid load key".

(** The same message on another topic. *)
Definition on_topic (t : string) (msg : Message) : Message :=
  {| topic := t; partition := partition msg; key := key msg;
     value := value msg; error := error msg |}.

(** A dispatcher as [__init__] leaves it. *)
Definition fresh : RemoteDispatcher.obj (list (string * PyVal)) :=
  fst (RemoteDispatcher.__init__ ["exp.topic"%string] (VStr "localhost:9092")
                                 None "latest" None []).

(** A serializer in the place of [pickle.dumps], which [loads] inverts
    on the documents it knows; it refuses everything else. *)
Definition dumps (v : PyVal) : result bytes :=
  match v with
  | VTuple [VStr "start"; VDict [(VStr "uid", VStr "a1")]] => inr [x00]
  | VTuple [VStr "event"; VDict [(VStr "seq_num", VInt 1)]] => inr [x01]
  | VTuple [VStr "stop"; VDict [(VStr "exit_status", VStr "success")]] => inr [x02]
  | _ => inl (mkExc (UserError "PicklingError") "cannot pickle object")
  end%byte.

(** A publisher as [Publisher.__init__] leaves it. *)
Definition publisher : Publisher.obj :=
  fst (Publisher.__init__ "exp.topic" "localhost:9092" None).

(** Subscribers that are interrupted at the stop document. *)
Definition interrupted : PyExc := mkExc KeyboardInterrupt EmptyString.

Definition interrupt_at_stop (seen : list (string * PyVal)) (member : string)
    (doc : PyVal) : list (string * PyVal) * option PyExc :=
  (seen ++ [(member, doc)],
   if String.eqb member "stop" then Some interrupted else None).

(** A start document after the stop document. *)
Definition two_runs : list (option Message) :=
  [Some (message "exp.topic" [x02]); Some (message "exp.topic" [x00])]%byte.

End Sample.

(* ===================================================================== *)
(** * produce.py: the methods of a producer that is built *)
(* ===================================================================== *)

Module Producing.

Import Py Produce Produce.BasicProducer.

(** Calls made on the logger and on [self._producer]. *)
Inductive Call : Type :=
| LoggerDebugProducing (topic : string) (key : option string) (message : PyVal)
| ProducerProduce (topic : string) (key : option string) (value : Kafka.bytes)
                  (on_delivery : DeliveryCallback)
| ProducerPoll
| LoggerDebugFlushing (topic : string) (key : option string)
| ProducerFlush
| ProducerListTopics (topic : string).

(** [BasicProducer.produce(message)] with the serializer given at
    construction (by default [msgpack.dumps]): the debug record, then
    the serializer, then [produce], then [poll(0)]. *)
Definition produce (serializer : PyVal -> result Kafka.bytes) (self : obj)
    (message : PyVal) : option PyExc * list Call :=
  let logged := LoggerDebugProducing (topic self) (_key self) message in
  match serializer message with
  | inl e => (Some e, [logged])
  | inr payload =>
      (None, [logged;
              ProducerProduce (topic self) (_key self) payload (on_delivery self);
              ProducerPoll])
  end.

(** [BasicProducer.flush()] *)
Definition flush (self : obj) : list Call :=
  [LoggerDebugFlushing (topic self) (_key self); ProducerFlush].

(** [BasicProducer.get_cluster_metadata(timeout)] asks for the
    producer's own topic. *)
Definition get_cluster_metadata (self : obj) : list Call :=
  [ProducerListTopics (topic self)].

(** Messages produced one after the other; the first exception ends
    the sequence. *)
Fixpoint produce_all (serializer : PyVal -> result Kafka.bytes) (self : obj)
    (messages : list PyVal) : option PyExc * list Call :=
  match messages with
  | [] => (None, [])
  | message :: rest =>
      match produce serializer self message with
      | (Some e, calls) => (Some e, calls)
      | (None, calls) =>
          let (raised, calls') := produce_all serializer self rest in
          (raised, calls ++ calls')
      end
  end.

(** The payloads handed to the client, with topic and key. *)
Fixpoint produced (calls : list Call) : list (string * option string * Kafka.bytes) :=
  match calls with
  | [] => []
  | ProducerProduce t k payload _ :: rest => (t, k, payload) :: produced rest
  | _ :: rest => produced rest
  end.

Definition is_producer_poll (c : Call) : bool :=
  match c with ProducerPoll => true | _ => false end.

(** The payloads of the messages that serialize. *)
Fixpoint payloads (serializer : PyVal -> result Kafka.bytes)
    (messages : list PyVal) : list Kafka.bytes :=
  match messages with
  | [] => []
  | message :: rest =>
      match serializer message with
      | inr payload => payload :: payloads serializer rest
      | inl _ => payloads serializer rest
      end
  end.

End Producing.

(* ===================================================================== *)
(** * The consumer and the publisher of the specification *)
(* ===================================================================== *)

(** Modelled from the spec: the polling consumer core and the document
    redelivery adapter (sections 4.3 and 4.4), the consumer that the
    fixtures of conftest.py start with [continue_polling] and whose
    handlers take [(consumer, topic, ...)]; its code (the [consume]
    module and the package root) is not among the sources.  [start]
    fails at once when [closed]; each turn of its loop polls, then does
    nothing more on a timeout, reports a result with an error, or
    decodes a valid message, dispatches it to the handler with the
    consumer and the topic, and after a dispatch that succeeded, and
    only then, evaluates [continue_polling]; the loop is left normally
    when the answer is false, and on every exit, normal or by a fault,
    [stop] closes the connection and sets [closed]. *)
Module Consumer.

Import Py Kafka.

Record obj : Type := mk {
  closed : bool;
  polls : nat
}.

(** Calls made by the loop, in order; [D] is what the codec decodes to. *)
Inductive Event (D : Type) : Type :=
| Poll
| Report (err : KafkaError)
| Decode (value : bytes)
| Dispatch (topic : string) (decoded : D)
| ContinuePolling (answer : bool)
| Close.

Arguments Poll {D}.
Arguments Report {D} err.
Arguments Decode {D} value.
Arguments Dispatch {D} topic decoded.
Arguments ContinuePolling {D} answer.
Arguments Close {D}.

(** How a turn of the loop ends. *)
Inductive Step : Type :=
| Next
| Exit
| Fault (e : PyExc).

Definition already_stopped : PyExc :=
  mkExc (UserError "AlreadyStoppedError") "start() on a consumer that was stopped".

Definition polled (self : obj) : obj :=
  {| closed := closed self; polls := S (polls self) |}.

Definition stop {D : Type} (self : obj) : obj * list (Event D) :=
  ({| closed := true; polls := polls self |}, [Close]).

Section Core.

(** What the codec decodes to, and the state that the handler and the
    continuation predicate of the caller share. *)
Variable D : Type.
Variable U : Type.

Variable decode : bytes -> result D.
Variable handler : obj -> string -> D -> U -> U * option PyExc.
Variable continue_polling : U -> bool.
Variable broker : nat -> option Message.

(** One turn: steps (a) to (d) of section 4.3. *)
Definition iteration (self : obj) (u : U) : Step * obj * U * list (Event D) :=
  match broker (polls self) with
  | None => (Next, polled self, u, [Poll])
  | Some msg =>
      match error msg with
      | Some err => (Next, polled self, u, [Poll; Report err])
      | None =>
          match decode (value msg) with
          | inl e => (Fault e, polled self, u, [Poll; Decode (value msg)])
          | inr decoded =>
              let handled := handler (polled self) (topic msg) decoded u in
              let events := [Poll; Decode (value msg); Dispatch (topic msg) decoded] in
              match snd handled with
              | Some e => (Fault e, polled self, fst handled, events)
              | None =>
                  let answer := continue_polling (fst handled) in
                  (if answer then Next else Exit, polled self, fst handled,
                   events ++ [ContinuePolling answer])
              end
          end
      end
  end.

(** The loop, observed after at most [turns] turns. *)
Fixpoint loop (turns : nat) (self : obj) (u : U)
  : Outcome * obj * U * list (Event D) :=
  match turns with
  | 0 => (Running, self, u, [])
  | S turns' =>
      match iteration self u with
      | (Next, self', u', events) =>
          let '(outcome, self'', u'', events') := loop turns' self' u' in
          (outcome, self'', u'', events ++ events')
      | (Exit, self', u', events) => (Returned, self', u', events)
      | (Fault e, self', u', events) => (Raised e, self', u', events)
      end
  end.

(** [start(continue_polling)]: the precondition, the loop, and the
    cleanup on every exit. *)
Definition start (turns : nat) (self : obj) (u : U)
  : Outcome * obj * U * list (Event D) :=
  if closed self then (Raised already_stopped, self, u, [])
  else
    match loop turns self u with
    | (Running, self', u', events) => (Running, self', u', events)
    | (finished, self', u', events) =>
        (finished, fst (@stop D self'), u', events ++ snd (@stop D self'))
    end.

(** The valid messages of a list of poll results that decode, with
    their topics. *)
Fixpoint documents (results : list (option Message)) : list (string * D) :=
  match results with
  | [] => []
  | Some msg :: rest =>
      match error msg, decode (value msg) with
      | None, inr decoded => (topic msg, decoded) :: documents rest
      | _, _ => documents rest
      end
  | None :: rest => documents rest
  end.

End Core.

(** What was dispatched, and what the predicate answered. *)
Fixpoint dispatched {D : Type} (events : list (Event D)) : list (string * D) :=
  match events with
  | [] => []
  | Dispatch t decoded :: rest => (t, decoded) :: dispatched rest
  | _ :: rest => dispatched rest
  end.



Definition is_close {D : Type} (e : Event D) : bool :=
  match e with Close => true | _ => false end.

Definition is_poll {D : Type} (e : Event D) : bool :=
  match e with Poll => true | _ => false end.

(** The document redelivery adapter of section 4.4: the codec decodes
    to a pair (name, payload) and the handler is called as
    [handler(consumer, topic, name, payload)]. *)
Definition document_handler (U : Type)
    (handler : obj -> string -> string -> PyVal -> U -> U * option PyExc)
  : obj -> string -> string * PyVal -> U -> U * option PyExc :=
  fun consumer t decoded => handler consumer t (fst decoded) (snd decoded).

End Consumer.

(** Modelled from the spec: the [Publisher] of the package root, which
    test_publisher.py builds with [key=] and whose [_producer_config]
    it reads; its code is not among the sources.  It takes its servers
    as one comma-delimited string (section 6) and combines them with
    the servers of the configuration, the argument first (section 8,
    property 6); the attributes the tests read are those of
    [BasicProducer], so the string is split at the commas and handed to
    [BasicProducer.__init__]. *)
Module PackagePublisher.

Import Py Produce.

Definition __init__ (topic bootstrap_servers : string) (key : option string)
    (producer_config : option Dict.t) (on_delivery : option DeliveryCallback)
  : result BasicProducer.obj * list Event :=
  BasicProducer.__init__ topic (OfList (PyStr.split "," bootstrap_servers))
                         key producer_config on_delivery.

End PackagePublisher.

(** Collaborators for the consumer of the specification. *)
Module SampleConsumer.

Import Py Kafka.

(** The codec of the adapter, on the payloads of [Sample.loads]. *)
Definition decode (payload : bytes) : result (string * PyVal) :=
  match Sample.loads payload with
  | inr (VTuple [VStr name; doc]) => inr (name, doc)
  | inr _ => inl (mkExc ValueError "not a (name, document) pair")
  | inl e => inl e
  end.

(** A handler that keeps the documents with their topics, as
    [store_consumed_document] does. *)
Definition store (consumer : Consumer.obj) (t name : string) (doc : PyVal)
    (seen : list (string * string * PyVal))
  : list (string * string * PyVal) * option PyExc :=
  (seen ++ [(t, name, doc)], None).

(** [until_message_count_reached] for an expected count. *)
Definition until_count (expected : nat) (seen : list (string * string * PyVal)) : bool :=
  (List.length seen <? expected)%nat.

Definition fresh : Consumer.obj := {| Consumer.closed := false; Consumer.polls := 0 |}.

End SampleConsumer.

(* ===================================================================== *)
(** * Facts about strings and dictionaries *)
(* ===================================================================== *)

Module PyStrFacts.

Import PyStr.
Local Open Scope string_scope.

Lemma append_assoc (a b c : string) : (a ++ b) ++ c = a ++ (b ++ c).
Proof.
  induction a as [|x a IH]; simpl; [reflexivity | now rewrite IH].
Qed.

Lemma append_empty_r (a : string) : a ++ EmptyString = a.
Proof.
  induction a as [|x a IH]; simpl; [reflexivity | now rewrite IH].
Qed.

Lemma split_inhabited (c : ascii) (s : string) : split c s <> [].
Proof.
  destruct s as [|a s]; simpl; [discriminate|].
  destruct (Ascii.eqb a c); [discriminate|].
  destruct (split c s); discriminate.
Qed.

(** Joining the fields of a split gives the string back. *)
Lemma join_split (c : ascii) (s : string) :
  join (String c EmptyString) (split c s) = s.
Proof.
  induction s as [|a s IH]; simpl; [reflexivity|].
  destruct (Ascii.eqb_spec a c) as [->|Hne].
  - pose proof (split_inhabited c s) as Hs.
    destruct (split c s) as [|f fs]; [contradiction|].
    change (join (String c EmptyString) (EmptyString :: f :: fs))
      with (String c (join (String c EmptyString) (f :: fs))).
    now rewrite IH.
  - pose proof (split_inhabited c s) as Hs.
    destruct (split c s) as [|f fs]; [contradiction|].
    destruct fs as [|g fs].
    + simpl in IH. simpl. now rewrite IH.
    + change (join (String c EmptyString) (String a f :: g :: fs))
        with (String a (f ++ String c EmptyString ++ join (String c EmptyString) (g :: fs))).
      change (join (String c EmptyString) (f :: g :: fs))
        with (f ++ String c EmptyString ++ join (String c EmptyString) (g :: fs)) in IH.
      now rewrite IH.
Qed.

(** Joining two lists: the second one follows a separator, unless one
    of them is empty. *)
Lemma join_app (sep : string) (l1 l2 : list string) :
  l1 <> [] -> l2 <> [] ->
  join sep (l1 ++ l2)%list = join sep l1 ++ sep ++ join sep l2.
Proof.
  intros H1 H2. induction l1 as [|x l1 IH]; [contradiction|].
  destruct l1 as [|y l1].
  - simpl. destruct l2; [contradiction | reflexivity].
  - change (join sep ((x :: y :: l1) ++ l2)%list)
      with (x ++ sep ++ join sep ((y :: l1) ++ l2)%list).
    rewrite IH by discriminate.
    change (join sep (x :: y :: l1)) with (x ++ sep ++ join sep (y :: l1)).
    now rewrite !append_assoc.
Qed.

Lemma Substring_refl (s : string) : Substring s s.
Proof.
  exists EmptyString, EmptyString. simpl. now rewrite append_empty_r.
Qed.

Lemma Substring_trans (a b c : string) :
  Substring a b -> Substring b c -> Substring a c.
Proof.
  intros (p1 & q1 & ->) (p2 & q2 & ->).
  exists (p2 ++ p1), (q1 ++ q2). now rewrite !append_assoc.
Qed.

Lemma Substring_app_r (n a b : string) : Substring n b -> Substring n (a ++ b).
Proof.
  intros (p & q & ->). exists (a ++ p), q. now rewrite append_assoc.
Qed.

Lemma Substring_app_l (n a b : string) : Substring n a -> Substring n (a ++ b).
Proof.
  intros (p & q & ->). exists p, (q ++ b). now rewrite !append_assoc.
Qed.

Lemma Substring_cons (n : string) (x : ascii) (h : string) :
  Substring n h -> Substring n (String x h).
Proof.
  intros (p & q & ->). now exists (String x p), q.
Qed.

(** An item of a list occurs in the joined list. *)
Lemma Substring_join (sep x : string) (l : list string) :
  In x l -> Substring x (join sep l).
Proof.
  induction l as [|y l IH]; [contradiction|].
  intros [->|Hin].
  - destruct l; [apply Substring_refl|].
    apply Substring_app_l, Substring_refl.
  - destruct l as [|z l]; [contradiction|].
    change (join sep (y :: z :: l)) with (y ++ sep ++ join sep (z :: l)).
    now apply Substring_app_r, Substring_app_r, IH.
Qed.

Lemma startswith_spec (p s : string) :
  startswith p s = true <-> exists post, s = p ++ post.
Proof.
  revert s. induction p as [|a p IH]; intros s; simpl.
  - split; [now exists s | reflexivity].
  - destruct s as [|b s].
    + split; [discriminate | intros (post & H); discriminate].
    + rewrite andb_true_iff, IH, Ascii.eqb_eq. split.
      * intros (-> & post & ->). now exists post.
      * intros (post & H). injection H as -> ->. split; [reflexivity | now exists post].
Qed.

(** [contains] decides [Substring]. *)
Lemma contains_spec (needle hay : string) :
  contains needle hay = true <-> Substring needle hay.
Proof.
  induction hay as [|x hay IH].
  - simpl. rewrite orb_false_r, startswith_spec. split.
    + intros (post & H). exists EmptyString, post. exact H.
    + intros (pre & post & H). destruct pre; [now exists post|discriminate].
  - change (contains needle (String x hay))
      with (startswith needle (String x hay) || contains needle hay).
    rewrite orb_true_iff, IH, startswith_spec. split.
    + intros [(post & H)|H].
      * exists EmptyString, post. exact H.
      * now apply Substring_cons.
    + intros (pre & post & H). destruct pre as [|y pre].
      * left. now exists post.
      * right. simpl in H. injection H as _ ->. now exists pre, post.
Qed.

End PyStrFacts.

Module DictFacts.

Import Py.

Lemma get_set_same (k : string) (v : PyVal) (d : Dict.t) :
  Dict.get k (Dict.set k v d) = Some v.
Proof.
  induction d as [|[k' v'] d IH]; simpl.
  - now rewrite String.eqb_refl.
  - destruct (String.eqb k k') eqn:E; simpl; rewrite E; [reflexivity | exact IH].
Qed.

Lemma get_set_other (k k' : string) (v : PyVal) (d : Dict.t) :
  k <> k' -> Dict.get k' (Dict.set k v d) = Dict.get k' d.
Proof.
  intros Hne. induction d as [|[k0 v0] d IH]; simpl.
  - apply String.eqb_neq in Hne. now rewrite String.eqb_sym, Hne.
  - destruct (String.eqb_spec k k0) as [->|Hk]; simpl.
    + apply String.eqb_neq in Hne. now rewrite String.eqb_sym, Hne.
    + now rewrite IH.
Qed.

Lemma mem_set (k : string) (v : PyVal) (d : Dict.t) :
  Dict.mem k (Dict.set k v d) = true.
Proof. unfold Dict.mem. now rewrite get_set_same. Qed.

(** Assigning twice to a key is assigning the last value. *)
Lemma set_set (k : string) (v w : PyVal) (d : Dict.t) :
  Dict.set k w (Dict.set k v d) = Dict.set k w d.
Proof.
  induction d as [|[k' v'] d IH]; simpl.
  - now rewrite String.eqb_refl.
  - destruct (String.eqb k k') eqn:E; simpl; rewrite E; [reflexivity | now rewrite IH].
Qed.

(** Assigning to a key the value it has changes nothing. *)
Lemma set_get (k : string) (v : PyVal) (d : Dict.t) :
  Dict.get k d = Some v -> Dict.set k v d = d.
Proof.
  induction d as [|[k' v'] d IH]; simpl; [discriminate|].
  destruct (String.eqb k k'); intros H.
  - now injection H as ->.
  - now rewrite IH.
Qed.

Lemma In_set (k : string) (v : PyVal) (d : Dict.t) :
  In (k, v) (Dict.set k v d).
Proof.
  induction d as [|[k' v'] d IH]; simpl; [now left|].
  destruct (String.eqb_spec k k') as [->|Hk]; simpl; [now left | now right].
Qed.

(** Updating with a dictionary whose keys are new appends its entries. *)
Lemma update_fresh (d other : Dict.t) :
  NoDup (map fst other) ->
  (forall k, In k (map fst other) -> Dict.get k d = None) ->
  Dict.update d other = (d ++ other)%list.
Proof.
  unfold Dict.update. revert d.
  induction other as [|[k v] other IH]; intros d Hnd Hfresh; simpl.
  - now rewrite app_nil_r.
  - assert (Hset : Dict.set k v d = (d ++ [(k, v)])%list).
    { assert (Hk : Dict.get k d = None) by (apply Hfresh; now left).
      clear -Hk. induction d as [|[k' v'] d IHd]; simpl in *; [reflexivity|].
      destruct (String.eqb k k'); [discriminate | now rewrite IHd]. }
    rewrite Hset. inversion Hnd as [|? ? Hnotin Hnd']; subst.
    rewrite IH; [now rewrite <- app_assoc | exact Hnd' |].
    intros k0 Hin. rewrite <- Hset.
    rewrite get_set_other; [apply Hfresh; now right|].
    intros ->. now apply Hnotin.
Qed.

(** A dictionary, copied into an empty one, is itself. *)
Lemma update_empty (other : Dict.t) :
  NoDup (map fst other) -> Dict.update [] other = other.
Proof.
  intros Hnd. now rewrite update_fresh.
Qed.

End DictFacts.

(* ===================================================================== *)
(** * produce.py: the configuration and its rendering *)
(* ===================================================================== *)

Module ProduceFacts.

Import Py Produce Produce.BasicProducer PyStr PyStrFacts DictFacts.

(** The masked copy does not depend on the value under the masked key. *)
Lemma safe_config_with_password (v : PyVal) (self : obj) :
  safe_config (with_password v self)
  = Dict.set masked_key mask (_producer_config self).
Proof.
  unfold safe_config, with_password, Dict.copy; simpl.
  now rewrite mem_set, set_set.
Qed.

Lemma safe_config_masked (self : obj) :
  Dict.mem masked_key (_producer_config self) = true ->
  safe_config self = Dict.set masked_key mask (_producer_config self).
Proof.
  unfold safe_config, Dict.copy. now intros ->.
Qed.

(** An entry of a dictionary is shown in its rendering. *)
Lemma entry_in_repr (k : string) (v : PyVal) (d : Dict.t) :
  In (k, v) d ->
  Substring (PyStr.repr k ++ ": " ++ Py.repr v)%string (Dict.repr d).
Proof.
  intros Hin. unfold Dict.repr.
  apply Substring_app_r, Substring_app_l.
  apply Substring_join.
  apply (in_map (fun kv => (PyStr.repr (fst kv) ++ ": " ++ Py.repr (snd kv))%string)) in Hin.
  exact Hin.
Qed.

(** The rendering of the configuration is a part of [__str__]. *)
Lemma config_in_str (self : obj) :
  Substring (Dict.repr (safe_config self)) (__str__ self).
Proof.
  unfold __str__.
  do 12 apply Substring_app_r.
  apply Substring_app_l, Substring_refl.
Qed.

(** C6, as amended.  For every producer whose configuration has the key
    "sasl.password", the rendering [__str__] is computed from the
    configuration with that value replaced by the placeholder: it is the
    same whatever the password is, and it shows the entry
    ['sasl.password': '****'], the key name being visible. *)
Theorem str_masks_sasl_password (self : obj) :
  Dict.mem masked_key (_producer_config self) = true ->
  (forall v, __str__ (with_password v self) = __str__ self)
  /\ Substring "'sasl.password': '****'" (__str__ self).
Proof.
  intros Hmem. split.
  - intros v. unfold __str__.
    rewrite safe_config_with_password, (safe_config_masked self Hmem).
    reflexivity.
  - eapply Substring_trans; [|apply config_in_str].
    rewrite (safe_config_masked self Hmem).
    apply (entry_in_repr masked_key mask), In_set.
Qed.

Lemma str_masks_sasl_password_witness :
  (forall v, __str__ (with_password v Sample.redacted_producer)
             = __str__ Sample.redacted_producer)
  /\ Substring "'sasl.password': '****'" (__str__ Sample.redacted_producer).
Proof.
  apply (str_masks_sasl_password Sample.redacted_producer). reflexivity.
Defined.

(** The assertions of [test_redact_password_from_str_output]. *)
Example redacted_producer_str :
  contains "PASSWORD" (__str__ Sample.redacted_producer) = false
  /\ contains "sasl.password" (__str__ Sample.redacted_producer) = true
  /\ contains "****" (__str__ Sample.redacted_producer) = true.
Proof. repeat split; vm_compute; reflexivity. Qed.

(** C6, as stated, fails: a secret under another [sasl.*] key is
    rendered as it is, and no placeholder is shown. *)
Lemma other_sasl_secret_is_rendered :
  exists p,
    fst (__init__ "exp.topic" (OfList ["localhost:9092"%string]) None
                  (Some Sample.oauth_config) None) = inr p
    /\ contains "S3CRET" (__str__ p) = true
    /\ contains "alice" (__str__ p) = true
    /\ contains "****" (__str__ p) = false.
Proof.
  eexists. split; [reflexivity|]. repeat split; vm_compute; reflexivity.
Qed.

(** What [__init__] does with a list of servers. *)
Lemma init_of_list (topic : string) (key : option string)
    (producer_config : option Dict.t) (cb : option DeliveryCallback)
    (servers : list string) :
  match Dict.get "bootstrap.servers" (own_config producer_config) with
  | Some (VStr _) | None =>
      exists p,
        __init__ topic (OfList servers) key producer_config cb
        = (inr p, [LoggerDebug (_producer_config p);
                   ConfluentProducer (_producer_config p)])
        /\ Dict.get "bootstrap.servers" (_producer_config p)
           = Some (VStr (join ","
                           (servers ++ extra_servers (own_config producer_config))))
  | Some _ =>
      exists e,
        __init__ topic (OfList servers) key producer_config cb = (inl e, [])
        /\ exc_class e = AttributeError
  end.
Proof.
  unfold __init__, combine, extra_servers.
  destruct (Dict.get "bootstrap.servers" (own_config producer_config)) as [v|] eqn:E.
  - destruct v; try (eexists; split; reflexivity).
    eexists (mk _ _ _ _ _ _); split; [reflexivity|]. simpl. apply get_set_same.
  - eexists (mk _ _ _ _ _ _); split; [reflexivity|]. simpl.
    rewrite app_nil_r. apply get_set_same.
Qed.

(** A dictionary, copied into [self._producer_config], is itself. *)
Lemma own_config_given (producer_config : option Dict.t) :
  (forall d, producer_config = Some d -> NoDup (map fst d)) ->
  own_config producer_config
  = match producer_config with Some d => d | None => [] end.
Proof.
  intros Hd. destruct producer_config as [d|]; [|reflexivity].
  simpl. apply update_empty. now apply Hd.
Qed.





(** Without servers in the configuration the value is the joined list. *)
Corollary init_joins_servers (topic : string) (key : option string)
    (cb : option DeliveryCallback) (servers : list string) :
  exists p,
    fst (__init__ topic (OfList servers) key None cb) = inr p
    /\ Dict.get "bootstrap.servers" (_producer_config p)
       = Some (VStr (join "," servers)).
Proof.
  pose proof (init_of_list topic key None cb servers) as H.
  change (Dict.get "bootstrap.servers" (own_config None)) with (@None PyVal) in H.
  cbv beta iota in H. destruct H as (p & Hp & Hget).
  exists p. rewrite Hp. split; [reflexivity|].
  rewrite Hget. unfold extra_servers, own_config; simpl. now rewrite app_nil_r.
Qed.

(** With servers in the configuration, they follow the list's. *)
Corollary init_combines_servers (topic : string) (key : option string)
    (cb : option DeliveryCallback) (servers : list string)
    (pc : Dict.t) (s : string) :
  servers <> [] ->
  Dict.get "bootstrap.servers" (Dict.update [] pc) = Some (VStr s) ->
  exists p,
    fst (__init__ topic (OfList servers) key (Some pc) cb) = inr p
    /\ Dict.get "bootstrap.servers" (_producer_config p)
       = Some (VStr (join "," servers ++ "," ++ s)%string).
Proof.
  intros Hne Hget.
  pose proof (init_of_list topic key (Some pc) cb servers) as H.
  unfold own_config, extra_servers in H.
  rewrite Hget in H. destruct H as (p & Hp & Hval).
  exists p. rewrite Hp. split; [reflexivity|].
  rewrite Hval, join_app, join_split; [reflexivity | exact Hne | apply split_inhabited].
Qed.

End ProduceFacts.

(* ===================================================================== *)
(** * kafka.py: the poll loop *)
(* ===================================================================== *)

Module KafkaFacts.

Import Py Kafka Kafka.RemoteDispatcher.

Lemma dispatched_app (a b : list Event) :
  dispatched (a ++ b) = dispatched a ++ dispatched b.
Proof.
  induction a as [|x a IH]; simpl; [reflexivity|].
  destruct x; simpl; now rewrite IH.
Qed.

Section Collaborators.

Variable U : Type.
Variable deserializer : bytes -> result PyVal.
Variable DocumentNames : list string.
Variable process : U -> string -> PyVal -> U * option PyExc.
Variable broker : nat -> option Message.

Local Abbreviation handle := (handle deserializer DocumentNames process).
Local Abbreviation iteration := (iteration deserializer DocumentNames process broker).
Local Abbreviation _poll := (_poll deserializer DocumentNames process broker).
Local Abbreviation start := (start deserializer DocumentNames process broker).
Local Abbreviation call := (call deserializer DocumentNames process broker).
Local Abbreviation calls := (calls deserializer DocumentNames process broker).
Local Abbreviation flags := (flags deserializer DocumentNames process broker).
Local Abbreviation decode := (decode deserializer DocumentNames).
Local Abbreviation documents := (documents deserializer DocumentNames).

(** ** One turn of the loop *)

(** Handling a message leaves [closed] and the client alone, and
    neither polls nor closes. *)
Lemma handle_inv (self self' : obj U) (msg : Message) (r : option PyExc)
    (events : list Event) :
  handle self msg = (r, self', events) ->
  closed self' = closed self /\ polls self' = polls self
  /\ filter is_poll events = [] /\ filter is_close events = [].
Proof.
  unfold RemoteDispatcher.handle.
  destruct (deserializer (value msg)) as [e|decoded].
  { intros H; injection H as <- <- <-. now repeat split. }
  destruct (unpack_pair decoded) as [e|[name doc]].
  { intros H; injection H as <- <- <-. now repeat split. }
  destruct (lookup_member DocumentNames name) as [e|member].
  { intros H; injection H as <- <- <-. now repeat split. }
  destruct (process (subscribers self) member doc) as [u' raised].
  intros H; injection H as <- <- <-. now repeat split.
Qed.

(** A message that decodes is logged and handed to [process]. *)
Lemma handle_decoded (self : obj U) (msg : Message) (member : string) (doc : PyVal) :
  decode msg = Some (member, doc) ->
  handle self msg
  = (snd (process (subscribers self) member doc),
     {| closed := closed self; polls := polls self;
        subscribers := fst (process (subscribers self) member doc) |},
     [Deserialize (value msg); LoggerDebug (topic msg) (VStr member) doc;
      Process member doc]).
Proof.
  unfold RemoteDispatcher.decode, RemoteDispatcher.handle.
  destruct (deserializer (value msg)) as [e|decoded]; [discriminate|].
  destruct (unpack_pair decoded) as [e|[name doc']]; [discriminate|].
  destruct (lookup_member DocumentNames name) as [e|member'] eqn:El; [discriminate|].
  intros H; injection H as -> ->.
  assert (name = VStr member) as ->.
  { unfold lookup_member in El.
    destruct name; try (destruct (hashable _); discriminate).
    destruct (existsb _ _); [|discriminate]. now injection El as ->. }
  destruct (process (subscribers self) member doc) as [u' raised]. reflexivity.
Qed.

(** A payload that the deserializer rejects: the exception leaves
    [handle] before anything is logged or dispatched. *)
Lemma handle_malformed (self : obj U) (msg : Message) (e : PyExc) :
  deserializer (value msg) = inl e ->
  handle self msg = (Some e, self, [Deserialize (value msg)]).
Proof.
  unfold RemoteDispatcher.handle. now intros ->.
Qed.

(** The topic reaches the debug log only. *)
Lemma handle_topic (self : obj U) (msg : Message) (t : string) :
  fst (handle self (Sample.on_topic t msg)) = fst (handle self msg)
  /\ dispatched (snd (handle self (Sample.on_topic t msg)))
     = dispatched (snd (handle self msg)).
Proof.
  unfold RemoteDispatcher.handle, Sample.on_topic; simpl.
  destruct (deserializer (value msg)) as [e|decoded]; [now split|].
  destruct (unpack_pair decoded) as [e|[name doc]]; [now split|].
  destruct (lookup_member DocumentNames name) as [e|member]; [now split|].
  destruct (process (subscribers self) member doc) as [u' raised]. now split.
Qed.

Lemma iteration_inv (self self' : obj U) (r : option PyExc) (events : list Event) :
  iteration self = (r, self', events) ->
  closed self' = closed self /\ polls self' = S (polls self)
  /\ exists rest, events = Poll :: rest
                  /\ filter is_poll rest = [] /\ filter is_close rest = [].
Proof.
  unfold RemoteDispatcher.iteration.
  destruct (broker (polls self)) as [msg|].
  - destruct (error msg) as [err|].
    + intros H; injection H as <- <- <-. repeat split. now eexists.
    + destruct (handle (polled self) msg) as [[r' s'] ev'] eqn:Eh.
      intros H; injection H as <- <- <-.
      apply handle_inv in Eh. destruct Eh as (Hc & Hp & Hpoll & Hclose).
      repeat split; [exact Hc | exact Hp |]. now exists ev'.
  - intros H; injection H as <- <- <-. repeat split. now eexists.
Qed.

(** ** The loop *)

Lemma _poll_S (turns : nat) (self : obj U) :
  _poll (S turns) self
  = match iteration self with
    | (Some e, self', events) => (Raised e, self', events)
    | (None, self', events) =>
        let '(outcome, self'', events') := _poll turns self' in
        (outcome, self'', events ++ events')
    end.
Proof. reflexivity. Qed.

(** The loop is left by an exception only. *)
Lemma _poll_not_returned (turns : nat) (self : obj U) :
  fst (fst (_poll turns self)) <> Returned.
Proof.
  revert self. induction turns as [|turns IH]; intros self; [discriminate|].
  rewrite _poll_S.
  destruct (iteration self) as [[[e|] s] ev]; [discriminate|].
  specialize (IH s). destruct (_poll turns s) as [[o s'] ev']. exact IH.
Qed.

(** The loop never closes the client and never writes [closed]; it
    polls once a turn. *)
Lemma _poll_inv (turns : nat) (self self' : obj U) (o : Outcome)
    (events : list Event) :
  _poll turns self = (o, self', events) ->
  closed self' = closed self
  /\ filter is_close events = []
  /\ polls self' = polls self + List.length (filter is_poll events)
  /\ (o = Running -> List.length (filter is_poll events) = turns).
Proof.
  revert self self' o events.
  induction turns as [|turns IH]; intros self self' o events.
  - intros H; injection H as <- <- <-. simpl. repeat split. lia.
  - rewrite _poll_S.
    destruct (iteration self) as [[r s] ev] eqn:Ei.
    apply iteration_inv in Ei.
    destruct Ei as (Hc & Hp & rest & -> & Hpoll & Hclose).
    destruct r as [e|].
    + intros H; injection H as <- <- <-. simpl. rewrite Hpoll, Hclose. simpl.
      repeat split; [exact Hc | lia | discriminate].
    + destruct (_poll turns s) as [[o' s'] ev'] eqn:Ep.
      apply IH in Ep. destruct Ep as (Hc' & Hclose' & Hp' & Hrun).
      intros H; injection H as <- <- <-.
      simpl. rewrite !filter_app, Hpoll, Hclose, Hclose'. simpl.
      repeat split; [congruence | lia | intros Ho; rewrite (Hrun Ho); reflexivity].
Qed.

(** Turns taken one after the other. *)
Lemma _poll_add (n m : nat) (self : obj U) :
  _poll (n + m) self
  = match _poll n self with
    | (Running, self', events) =>
        let '(outcome, self'', events') := _poll m self' in
        (outcome, self'', events ++ events')
    | finished => finished
    end.
Proof.
  revert self. induction n as [|n IH]; intros self.
  - simpl. now destruct (_poll m self) as [[o s] ev].
  - change (S n + m) with (S (n + m)). rewrite !_poll_S.
    destruct (iteration self) as [[[e|] s] ev]; [reflexivity|].
    rewrite IH. destruct (_poll n s) as [[o s'] ev'].
    destruct o; try reflexivity.
    destruct (_poll m s') as [[o'' s''] ev'']. now rewrite app_assoc.
Qed.

(** An exception at turn [n], after [n] turns without one. *)
Lemma _poll_raises_at (n : nat) (self self_n self_e : obj U)
    (events_n events_e : list Event) (msg : Message) (e : PyExc) :
  _poll n self = (Running, self_n, events_n) ->
  broker (polls self_n) = Some msg ->
  error msg = None ->
  handle (polled self_n) msg = (Some e, self_e, events_e) ->
  forall turns, n < turns ->
    _poll turns self = (Raised e, self_e, events_n ++ Poll :: events_e).
Proof.
  intros Hn Hb Herr Hh turns Hlt.
  replace turns with (n + S (turns - S n)) by lia.
  rewrite _poll_add, Hn, _poll_S.
  unfold RemoteDispatcher.iteration. now rewrite Hb, Herr, Hh.
Qed.

(** ** [start] and [stop] *)

Lemma start_closed (turns : nat) (self : obj U) :
  closed self = true -> start turns self = (Raised already_stopped, self, []).
Proof. unfold RemoteDispatcher.start. now intros ->. Qed.

Lemma start_running (turns : nat) (self self' : obj U) (events : list Event) :
  closed self = false ->
  _poll turns self = (Running, self', events) ->
  start turns self = (Running, self', events).
Proof. unfold RemoteDispatcher.start. now intros -> ->. Qed.

Lemma start_raised (turns : nat) (self self' : obj U) (events : list Event)
    (e : PyExc) :
  closed self = false ->
  _poll turns self = (Raised e, self', events) ->
  start turns self
  = if isinstance_Exception e
    then (Raised e, fst (stop self'), events ++ [Close])
    else (Raised e, self', events).
Proof. unfold RemoteDispatcher.start. now intros -> ->. Qed.

(** [start] does not return: it raises or it is still polling. *)
Lemma start_not_returned (turns : nat) (self : obj U) :
  fst (fst (start turns self)) <> Returned.
Proof.
  unfold RemoteDispatcher.start. destruct (closed self); [discriminate|].
  pose proof (_poll_not_returned turns self) as H.
  destruct (_poll turns self) as [[o s] ev]. destruct o; simpl in *; try congruence.
  destruct (isinstance_Exception e); discriminate.
Qed.

(** ** A run without exception *)

Lemma documents_length (results : list (option Message)) :
  Forall (fun r => forall msg, r = Some msg -> error msg = None ->
                               decode msg <> None) results ->
  List.length (documents results) = List.length (filter valid results).
Proof.
  induction 1 as [|r results Hr _ IH]; [reflexivity|].
  destruct r as [msg|]; simpl; [|exact IH].
  destruct (error msg) eqn:Ee; [exact IH|].
  specialize (Hr msg eq_refl Ee).
  destruct (decode msg); [simpl; now rewrite IH | contradiction].
Qed.

(** When the subscribers do not raise and every valid message decodes,
    the loop is still running after any number of turns, and it has
    handed over the documents of the valid messages, in order. *)
Lemma _poll_clean (turns : nat) (self : obj U) :
  (forall u member doc, snd (process u member doc) = None) ->
  (forall i msg, polls self <= i < polls self + turns ->
                 broker i = Some msg -> error msg = None -> decode msg <> None) ->
  exists self' events,
    _poll turns self = (Running, self', events)
    /\ dispatched events = documents (map broker (seq (polls self) turns)).
Proof.
  intros Hproc. revert self.
  induction turns as [|turns IH]; intros self Hdec; [now eexists; eexists|].
  rewrite _poll_S. unfold RemoteDispatcher.iteration.
  cbn [seq map].
  destruct (broker (polls self)) as [msg|] eqn:Eb.
  - destruct (error msg) as [err|] eqn:Ee.
    + destruct (IH (polled self)) as (s' & ev' & Hp & Hd).
      { intros i m Hi. apply Hdec. simpl in Hi. lia. }
      rewrite Hp. eexists; eexists; split; [reflexivity|].
      simpl. rewrite Ee. exact Hd.
    + destruct (decode msg) as [[member doc]|] eqn:Ed.
      2:{ exfalso. apply (Hdec (polls self) msg); [lia | assumption..]. }
      rewrite (handle_decoded (polled self) msg Ed).
      rewrite (Hproc (subscribers (polled self)) member doc).
      match goal with
      | |- context [RemoteDispatcher._poll _ _ _ _ turns ?s1] =>
          destruct (IH s1) as (s' & ev' & Hp & Hd)
      end.
      { intros i m Hi. apply Hdec. simpl in Hi. lia. }
      rewrite Hp. eexists; eexists; split; [reflexivity|].
      simpl. rewrite Ee, Ed. simpl in Hd. now rewrite Hd.
  - destruct (IH (polled self)) as (s' & ev' & Hp & Hd).
    { intros i m Hi. apply Hdec. simpl in Hi. lia. }
    rewrite Hp. eexists; eexists; split; [reflexivity|].
    simpl. exact Hd.
Qed.

(** ** The public methods, one after the other *)

Lemma call_closed (c : Call) (self : obj U) :
  closed self = true ->
  closed (snd (fst (call c self))) = true
  /\ filter is_poll (snd (call c self)) = []
  /\ fst (fst (call c self)) <> Running.
Proof.
  intros Hc. destruct c as [turns|]; simpl.
  - rewrite (start_closed turns self Hc). simpl. repeat split; [exact Hc | discriminate].
  - repeat split. discriminate.
Qed.

Lemma calls_closed (cs : list Call) (self : obj U) :
  closed self = true ->
  closed (fst (calls cs self)) = true /\ filter is_poll (snd (calls cs self)) = [].
Proof.
  revert self. induction cs as [|c cs IH]; intros self Hc; [now split|].
  destruct (call_closed c self Hc) as (Hc' & Hpoll & Hrun).
  simpl. destruct (call c self) as [[o s] ev]. simpl in *.
  specialize (IH s Hc').
  destruct (calls cs s) as [s' ev'] eqn:Ecs. simpl in IH. destruct IH as [IH1 IH2].
  destruct o; try contradiction; simpl; now rewrite filter_app, Hpoll, IH2.
Qed.

Lemma flags_cons (c : Call) (cs : list Call) (self : obj U) :
  exists rest,
    flags (c :: cs) self = closed (snd (fst (call c self))) :: rest
    /\ (rest = [] \/ rest = flags cs (snd (fst (call c self)))).
Proof.
  simpl. destruct (call c self) as [[o s] ev]; simpl.
  destruct o; eexists; split; try reflexivity; auto.
Qed.

(** Once [closed] is true, every later flag is true. *)
Lemma transitions_closed (a b : bool) (cs : list Call) (self : obj U) :
  closed self = true -> a && b = false ->
  transitions a b true (flags cs self) = 0.
Proof.
  intros Hc Hab. revert self Hc.
  induction cs as [|c cs IH]; intros self Hc; [reflexivity|].
  destruct (flags_cons c cs self) as (rest & -> & Hrest).
  destruct (call_closed c self Hc) as (Hc' & _ & _).
  rewrite Hc'. cbn [transitions].
  replace (Bool.eqb true a && Bool.eqb true b) with false
    by (destruct a, b; simpl in *; congruence).
  destruct Hrest as [->| ->]; [reflexivity|]. simpl. now apply IH.
Qed.

(** The flag never goes back, and it goes up at most once. *)
Lemma transitions_flags (cs : list Call) (self : obj U) :
  transitions true false (closed self) (flags cs self) = 0
  /\ transitions false true (closed self) (flags cs self) <= 1.
Proof.
  revert self. induction cs as [|c cs IH]; intros self; [simpl; lia|].
  destruct (closed self) eqn:Hc.
  { rewrite !transitions_closed by (assumption || reflexivity). lia. }
  destruct (flags_cons c cs self) as (rest & -> & Hrest).
  cbn [transitions]. simpl (Bool.eqb false _).
  destruct (closed (snd (fst (call c self)))) eqn:Hc'; simpl.
  - destruct Hrest as [->| ->]; simpl; [lia|].
    rewrite !transitions_closed by (assumption || reflexivity). lia.
  - destruct Hrest as [->| ->]; simpl; [lia|].
    specialize (IH (snd (fst (call c self)))). rewrite Hc' in IH. lia.
Qed.

(** ** From the publisher to the subscribers *)

(** A document published with a serializer that the deserializer
    inverts on it reaches [process] under its name. *)
Lemma published_document_is_processed (serializer : PyVal -> result bytes)
    (publisher : Publisher.obj) (name : string) (doc k : PyVal)
    (payload : bytes) (self : obj U) (msg : Message) :
  serializer (VTuple [VStr name; doc]) = inr payload ->
  deserializer payload = inr (VTuple [VStr name; doc]) ->
  In name DocumentNames ->
  value msg = payload -> error msg = None ->
  broker (polls self) = Some msg ->
  In (Produce (Publisher.topic publisher) k payload)
     (snd (Publisher.__call__ serializer publisher (VStr name) doc k))
  /\ dispatched (snd (iteration self)) = [(name, doc)].
Proof.
  intros Hser Hde Hin Hval Herr Hb. split.
  - unfold Publisher.__call__. rewrite Hser. simpl. auto.
  - assert (Hd : decode msg = Some (name, doc)).
    { unfold RemoteDispatcher.decode. rewrite Hval, Hde. simpl.
      replace (existsb (String.eqb name) DocumentNames) with true; [reflexivity|].
      symmetry. apply existsb_exists. exists name. split; [exact Hin|].
      apply String.eqb_refl. }
    unfold RemoteDispatcher.iteration.
    rewrite Hb, Herr, (handle_decoded (polled self) msg Hd). reflexivity.
Qed.

(** ** The loop of [RemoteDispatcher] *)

(** When every valid message among the next [turns] poll results
    decodes to a document of [DocumentNames] and the subscribers do not
    raise, [RemoteDispatcher.start] has called [process] exactly once
    for each valid message, in order, whatever the number of timeouts
    and broker errors in between, and it has polled [turns] times; it
    is still in its loop, [closed] is still false, and it never returns
    normally. *)
Theorem start_dispatches_valid_messages (turns : nat) (self : obj U) :
  closed self = false ->
  (forall u member doc, snd (process u member doc) = None) ->
  (forall i msg, polls self <= i < polls self + turns ->
                 broker i = Some msg -> error msg = None -> decode msg <> None) ->
  exists self' events,
    start turns self = (Running, self', events)
    /\ dispatched events = documents (map broker (seq (polls self) turns))
    /\ List.length (dispatched events)
       = List.length (filter valid (map broker (seq (polls self) turns)))
    /\ List.length (filter is_poll events) = turns
    /\ closed self' = false
    /\ (forall n, fst (fst (start n self)) <> Returned).
Proof.
  intros Hc Hproc Hdec.
  destruct (_poll_clean turns self Hproc Hdec) as (self' & events & Hp & Hd).
  exists self', events.
  destruct (_poll_inv turns self Hp) as (Hc' & _ & _ & Hn).
  split; [now apply start_running|].
  split; [exact Hd|].
  split.
  { rewrite Hd. apply documents_length.
    apply Forall_forall. intros r Hin msg -> He.
    apply in_map_iff in Hin. destruct Hin as (i & Hb & Hi).
    apply in_seq in Hi. now apply (Hdec i msg). }
  split; [now apply Hn|].
  split; [congruence|].
  intros n. apply start_not_returned.
Qed.

(** When, after [n] turns without exception, the message of the next
    turn makes the deserializer, the unpacking, the lookup in
    [DocumentNames] or [process] raise an exception [e] that is an
    instance of [Exception], then [RemoteDispatcher.start] calls [stop]
    (the trace has one [Close], [closed] becomes true) and raises the
    same [e]; no poll follows the one that brought the message. *)
Theorem start_cleans_up_and_reraises (n : nat) (self self_n self_e : obj U)
    (events_n events_e : list Event) (msg : Message) (e : PyExc) :
  closed self = false ->
  _poll n self = (Running, self_n, events_n) ->
  broker (polls self_n) = Some msg ->
  error msg = None ->
  handle (polled self_n) msg = (Some e, self_e, events_e) ->
  isinstance_Exception e = true ->
  forall turns, n < turns ->
    start turns self
    = (Raised e, fst (stop self_e), events_n ++ Poll :: events_e ++ [Close])
    /\ closed (fst (stop self_e)) = true
    /\ List.length (filter is_close (events_n ++ Poll :: events_e ++ [Close])) = 1
    /\ List.length (filter is_poll (events_n ++ Poll :: events_e ++ [Close])) = S n.
Proof.
  intros Hc Hn Hb Herr Hh Hexc turns Hlt.
  pose proof (_poll_raises_at _ Hn Hb Herr Hh Hlt) as Hp.
  destruct (_poll_inv n self Hn) as (_ & Hclose_n & _ & Hpolls_n).
  destruct (handle_inv _ _ Hh) as (_ & _ & Hpoll_e & Hclose_e).
  split.
  { rewrite (start_raised turns self Hc Hp), Hexc.
    now rewrite <- app_assoc. }
  split; [reflexivity|].
  rewrite !filter_app. cbn [filter is_close is_poll].
  rewrite !filter_app, Hclose_n, Hclose_e, Hpoll_e. cbn [filter is_close is_poll].
  split; [reflexivity|].
  rewrite length_app. rewrite (Hpolls_n eq_refl). simpl. lia.
Qed.

(** C3.  A poll result with an error: the error is logged, the payload
    is not given to the deserializer, [process] is not called, and the
    loop goes on with its next turn. *)
Theorem broker_error_is_logged_and_skipped (self : obj U) (msg : Message)
    (err : KafkaError) :
  broker (polls self) = Some msg ->
  error msg = Some err ->
  iteration self = (None, polled self, [Poll; LoggerError err])
  /\ subscribers (polled self) = subscribers self
  /\ forall turns,
       _poll (S turns) self
       = (let '(outcome, self', events) := _poll turns (polled self) in
          (outcome, self', Poll :: LoggerError err :: events)).
Proof.
  intros Hb Herr.
  assert (Hi : iteration self = (None, polled self, [Poll; LoggerError err])).
  { unfold RemoteDispatcher.iteration. now rewrite Hb, Herr. }
  split; [exact Hi|]. split; [reflexivity|].
  intros turns. rewrite _poll_S, Hi.
  now destruct (RemoteDispatcher._poll _ _ _ _ turns (polled self)) as [[o s] ev].
Qed.

(** With nothing but timeouts and broker errors, [start] never raises. *)
Corollary only_errors_keep_running (turns : nat) (self : obj U) :
  (forall i, valid (broker i) = false) ->
  closed self = false ->
  exists self' events,
    start turns self = (Running, self', events) /\ dispatched events = [].
Proof.
  intros Hv Hc.
  assert (H : exists self' events,
             _poll turns self = (Running, self', events) /\ dispatched events = []).
  { clear Hc. revert self. induction turns as [|turns IH]; intros self.
    - now eexists; eexists.
    - rewrite _poll_S. unfold RemoteDispatcher.iteration.
      specialize (Hv (polls self)). unfold valid in Hv.
      destruct (broker (polls self)) as [msg|].
      + destruct (error msg) as [err|]; [|discriminate].
        destruct (IH (polled self)) as (s & ev & -> & Hd).
        eexists; eexists; split; [reflexivity | exact Hd].
      + destruct (IH (polled self)) as (s & ev & -> & Hd).
        eexists; eexists; split; [reflexivity | exact Hd]. }
  destruct H as (s & ev & Hp & Hd). exists s, ev.
  split; [now apply start_running | exact Hd].
Qed.

(** C4.  On a dispatcher whose [closed] is true, [start] raises
    [RuntimeError] at once: nothing is polled, nothing else is called. *)
Theorem start_on_closed_raises (turns : nat) (self : obj U) :
  closed self = true ->
  start turns self = (Raised already_stopped, self, [])
  /\ exc_class already_stopped = RuntimeError.
Proof.
  intros Hc. split; [now apply start_closed | reflexivity].
Qed.

(** C7.  [closed] is false after [__init__] and true after [stop]; along
    any sequence of calls of [start] and [stop] it never goes from true
    to false and goes from false to true at most once; and once it is
    true, the calls that follow leave it true and poll nothing. *)
Theorem closed_is_one_shot (topics : list string) (bootstrap_servers : PyVal)
    (group_id : option string) (auto_offset_reset : string)
    (consumer_config : option Dict.t) (subscribers0 : U)
    (cs : list Call) (self : obj U) :
  closed (fst (__init__ topics bootstrap_servers group_id auto_offset_reset
                        consumer_config subscribers0)) = false
  /\ closed (fst (stop self)) = true
  /\ transitions true false (closed self) (flags cs self) = 0
  /\ transitions false true (closed self) (flags cs self) <= 1
  /\ (closed self = true ->
      closed (fst (calls cs self)) = true
      /\ filter is_poll (snd (calls cs self)) = []).
Proof.
  split; [reflexivity|]. split; [reflexivity|].
  destruct (transitions_flags cs self) as [Hdown Hup].
  split; [exact Hdown|]. split; [exact Hup|].
  now apply calls_closed.
Qed.

(** In [RemoteDispatcher._poll] a valid message whose payload decodes
    to a pair (name, document) with name a member of [DocumentNames] is
    handed to [self.process(DocumentNames[name], doc)] in the turn that
    polled it, before the next poll.  The arguments are the member and
    the document: the topic is written to the debug log and is not
    passed on, so the same message on any other topic gives the same
    call. *)
Theorem valid_message_is_processed (self : obj U) (msg : Message)
    (member : string) (doc : PyVal) :
  broker (polls self) = Some msg ->
  error msg = None ->
  decode msg = Some (member, doc) ->
  iteration self
  = (snd (process (subscribers self) member doc),
     {| closed := closed self; polls := S (polls self);
        subscribers := fst (process (subscribers self) member doc) |},
     [Poll; Deserialize (value msg); LoggerDebug (topic msg) (VStr member) doc;
      Process member doc])
  /\ forall t,
       dispatched (snd (handle (polled self) (Sample.on_topic t msg)))
       = [(member, doc)]
       /\ fst (handle (polled self) (Sample.on_topic t msg))
          = fst (handle (polled self) msg).
Proof.
  intros Hb Herr Hd. split.
  - unfold RemoteDispatcher.iteration.
    now rewrite Hb, Herr, (handle_decoded (polled self) msg Hd).
  - intros t. split; [|apply handle_topic].
    assert (Hd' : decode (Sample.on_topic t msg) = Some (member, doc)) by exact Hd.
    now rewrite (handle_decoded (polled self) _ Hd').
Qed.

End Collaborators.

(** ** Sample runs *)

Lemma start_dispatches_valid_messages_witness :
  exists self' events,
    RemoteDispatcher.start Sample.loads Sample.document_names Sample.keep
                           (Sample.serve Sample.results) 6 Sample.fresh
    = (Running, self', events)
    /\ dispatched events
       = [("start", VDict [(VStr "uid", VStr "a1")]);
          ("event", VDict [(VStr "seq_num", VInt 1)]);
          ("stop", VDict [(VStr "exit_status", VStr "success")])]%string
    /\ List.length (filter is_poll events) = 6
    /\ closed self' = false.
Proof.
  destruct (@start_dispatches_valid_messages _ Sample.loads Sample.document_names
              Sample.keep (Sample.serve Sample.results) 6 Sample.fresh)
    as (self' & events & Hs & Hd & _ & Hp & Hc & _).
  - reflexivity.
  - intros u member doc. reflexivity.
  - intros i msg Hi Hb He. simpl in Hi.
    do 6 (destruct i as [|i];
          [simpl in Hb; try discriminate; injection Hb as <-;
           try discriminate; vm_compute; discriminate|]).
    lia.
  - exists self', events. split; [exact Hs|]. split; [|split; assumption].
    rewrite Hd. reflexivity.
Defined.

(** After the stop document [RemoteDispatcher.start] has handed over
    every document, and whatever the number of turns it has not
    returned and [closed] is not true. *)
Lemma start_keeps_polling_after_stop_document :
  ~ (exists turns,
       fst (fst (RemoteDispatcher.start Sample.loads Sample.document_names
                   Sample.keep (Sample.serve Sample.last_document) turns
                   Sample.fresh)) = Returned
       \/ closed (snd (fst (RemoteDispatcher.start Sample.loads
                              Sample.document_names Sample.keep
                              (Sample.serve Sample.last_document) turns
                              Sample.fresh))) = true).
Proof.
  intros (turns & [H|H]).
  - exact (start_not_returned _ _ _ _ _ _ H).
  - destruct (@_poll_clean _ Sample.loads Sample.document_names Sample.keep
                (Sample.serve Sample.last_document) turns Sample.fresh)
      as (self' & events & Hp & _).
    + intros u member doc. reflexivity.
    + intros i msg _ Hb _.
      destruct i as [|i]; [injection Hb as <-; vm_compute; discriminate|].
      destruct i; discriminate.
    + assert (Hc0 : closed Sample.fresh = false) by reflexivity.
      rewrite (start_running _ _ _ _ _ _ Hc0 Hp) in H. simpl in H.
      destruct (_poll_inv _ _ _ _ _ _ Hp) as (Hc & _). rewrite Hc in H. discriminate.
Qed.

Lemma start_cleans_up_and_reraises_witness :
  exists self' events,
    RemoteDispatcher.start Sample.loads Sample.document_names Sample.keep
                           (Sample.serve Sample.faulty) 3 Sample.fresh
    = (Raised Sample.malformed, self', events)
    /\ closed self' = true
    /\ List.length (filter is_close events) = 1
    /\ List.length (filter is_poll events) = 3.
Proof.
  eexists; eexists.
  eapply (@start_cleans_up_and_reraises _ Sample.loads Sample.document_names
            Sample.keep (Sample.serve Sample.faulty) 2 Sample.fresh).
  - reflexivity.
  - reflexivity.
  - reflexivity.
  - reflexivity.
  - reflexivity.
  - reflexivity.
  - lia.
Defined.

(** Subscribers that raise [SystemExit] leave [RemoteDispatcher.start]
    without [stop] being called. *)
Lemma system_exit_skips_cleanup :
  exists self' events,
    RemoteDispatcher.start Sample.loads Sample.document_names Sample.exit_at_stop
                           (Sample.serve Sample.last_document) 3 Sample.fresh
    = (Raised (mkExc SystemExit "0"), self', events)
    /\ closed self' = false
    /\ filter is_close events = []
    /\ dispatched events
       = [("stop", VDict [(VStr "exit_status", VStr "success")])]%string.
Proof.
  eexists; eexists. split; [reflexivity|]. repeat split.
Qed.

Lemma broker_error_is_logged_and_skipped_witness :
  RemoteDispatcher.iteration Sample.loads Sample.document_names Sample.keep
                             (Sample.serve [Some (Sample.broker_error "exp.topic")])
                             Sample.fresh
  = (None, polled Sample.fresh,
     [Poll; LoggerError {| code := -195; reason := "Broker transport failure" |}]).
Proof.
  apply (@broker_error_is_logged_and_skipped _ Sample.loads Sample.document_names
           Sample.keep (Sample.serve [Some (Sample.broker_error "exp.topic")])
           Sample.fresh (Sample.broker_error "exp.topic")).
  - reflexivity.
  - reflexivity.
Defined.

Lemma start_on_closed_raises_witness :
  RemoteDispatcher.start Sample.loads Sample.document_names Sample.keep
                         (Sample.serve Sample.results) 6
                         (fst (stop Sample.fresh))
  = (Raised already_stopped, fst (stop Sample.fresh), []).
Proof.
  apply (@start_on_closed_raises _ Sample.loads Sample.document_names Sample.keep
           (Sample.serve Sample.results) 6 (fst (stop Sample.fresh))).
  reflexivity.
Defined.

Lemma closed_is_one_shot_witness :
  closed (fst (RemoteDispatcher.calls Sample.loads Sample.document_names Sample.keep
                 (Sample.serve Sample.results)
                 [call_start 6; call_stop; call_start 6]
                 (fst (stop Sample.fresh)))) = true
  /\ filter is_poll
       (snd (RemoteDispatcher.calls Sample.loads Sample.document_names Sample.keep
               (Sample.serve Sample.results)
               [call_start 6; call_stop; call_start 6]
               (fst (stop Sample.fresh)))) = [].
Proof.
  apply (@closed_is_one_shot _ Sample.loads Sample.document_names Sample.keep
           (Sample.serve Sample.results) ["exp.topic"%string] (VStr "localhost:9092")
           None "latest"%string None []
           [call_start 6; call_stop; call_start 6] (fst (stop Sample.fresh))).
  reflexivity.
Defined.

Lemma valid_message_is_processed_witness :
  RemoteDispatcher.iteration Sample.loads Sample.document_names Sample.keep
                             (Sample.serve Sample.last_document) Sample.fresh
  = (None,
     {| closed := false; polls := 1;
        subscribers := [("stop", VDict [(VStr "exit_status", VStr "success")])]%string |},
     [Poll; Deserialize [x02]%byte;
      LoggerDebug "exp.topic" (VStr "stop")
                  (VDict [(VStr "exit_status", VStr "success")]);
      Process "stop" (VDict [(VStr "exit_status", VStr "success")])]).
Proof.
  apply (@valid_message_is_processed _ Sample.loads Sample.document_names Sample.keep
           (Sample.serve Sample.last_document) Sample.fresh
           (Sample.message "exp.topic" [x02]%byte) "stop"%string
           (VDict [(VStr "exit_status", VStr "success")])).
  - reflexivity.
  - reflexivity.
  - reflexivity.
Defined.

(** In [RemoteDispatcher] the same payload on two topics gives the same
    call of [process], and a payload that decodes to a pair whose name
    is not a member of [DocumentNames] is not dispatched at all. *)
Lemma topic_is_not_dispatched :
  topic (Sample.message "topic.a" [x00]%byte) <> topic (Sample.message "topic.b" [x00]%byte)
  /\ dispatched (snd (RemoteDispatcher.handle Sample.loads Sample.document_names
                        Sample.keep Sample.fresh (Sample.message "topic.a" [x00]%byte)))
     = dispatched (snd (RemoteDispatcher.handle Sample.loads Sample.document_names
                          Sample.keep Sample.fresh (Sample.message "topic.b" [x00]%byte)))
  /\ fst (RemoteDispatcher.handle Sample.loads Sample.document_names
            Sample.keep Sample.fresh (Sample.message "topic.a" [x00]%byte))
     = fst (RemoteDispatcher.handle Sample.loads Sample.document_names
              Sample.keep Sample.fresh (Sample.message "topic.b" [x00]%byte))
  /\ Sample.loads [x03]%byte = inr (VTuple [VStr "report"; VDict []])
  /\ RemoteDispatcher.handle Sample.loads Sample.document_names Sample.keep
                             Sample.fresh (Sample.message "topic.a" [x03]%byte)
     = (Some (mkExc KeyError "report"), Sample.fresh,
        [Deserialize [x03]%byte; LoggerDebug "topic.a" (VStr "report") (VDict [])]).
Proof.
  repeat split. discriminate.
Qed.

(** ** The producers of [test_producer_config] *)

(** At the arguments of [test_producer_config], [Publisher.__init__] of
    kafka.py lets the configuration replace the servers of the
    argument; [BasicProducer.__init__] refuses the string, and combines
    the two when the argument is a list. *)
Theorem publisher_config_replaces_servers :
  Dict.get "bootstrap.servers"
           (Publisher.producer_config
              (fst (Publisher.__init__ "test.producer.config" "1.2.3.4:9092"
                                       (Some Sample.test_producer_config))))
  = Some (VStr "5.6.7.8:9092")
  /\ fst (Produce.BasicProducer.__init__
            "test.producer.config" (Produce.OfStr "1.2.3.4:9092")
            (Some "test.producer.config"%string)
            (Some Sample.test_producer_config) None)
     = inl Produce.BasicProducer.not_a_sequence
  /\ exists p,
       fst (Produce.BasicProducer.__init__
              "test.producer.config" (Produce.OfList ["1.2.3.4:9092"%string])
              (Some "test.producer.config"%string)
              (Some Sample.test_producer_config) None) = inr p
       /\ Dict.get "bootstrap.servers" (Produce.BasicProducer._producer_config p)
          = Some (VStr "1.2.3.4:9092,5.6.7.8:9092").
Proof.
  split; [reflexivity|]. split; [reflexivity|].
  eexists. split; reflexivity.
Qed.

End KafkaFacts.

(* ===================================================================== *)
(** * More on the producers *)
(* ===================================================================== *)

Module ProducerFacts.

Import Py Produce Produce.BasicProducer PyStr PyStrFacts DictFacts Producing.

Lemma get_absent (k : string) (d : Dict.t) :
  ~ In k (map fst d) -> Dict.get k d = None.
Proof.
  induction d as [|[k' v] d IH]; simpl; [reflexivity|].
  intros Hn. destruct (String.eqb_spec k k') as [->|Hk].
  - exfalso. apply Hn. now left.
  - apply IH. intros Hin. apply Hn. now right.
Qed.

(** After [d.update(other)] a key has the value of [other] when [other]
    has it, and the value it had otherwise. *)
Lemma get_update (k : string) (d other : Dict.t) :
  NoDup (map fst other) ->
  Dict.get k (Dict.update d other)
  = match Dict.get k other with
    | Some v => Some v
    | None => Dict.get k d
    end.
Proof.
  unfold Dict.update. revert d.
  induction other as [|[k0 v0] other IH]; intros d Hnd; [reflexivity|].
  inversion Hnd as [|? ? Hnotin Hnd']; subst.
  simpl. rewrite (IH _ Hnd').
  destruct (String.eqb_spec k k0) as [->|Hk].
  - rewrite (get_absent _ _ Hnotin). apply get_set_same.
  - destruct (Dict.get k other); [reflexivity|].
    apply get_set_other. congruence.
Qed.

Lemma In_set_other (k k' : string) (v v' : PyVal) (d : Dict.t) :
  k <> k' -> In (k, v) d -> In (k, v) (Dict.set k' v' d).
Proof.
  intros Hne. induction d as [|[k0 v0] d IH]; [contradiction|].
  intros [Heq|Hin]; simpl.
  - injection Heq as -> ->.
    destruct (String.eqb_spec k' k) as [->|_]; [contradiction | now left].
  - destruct (String.eqb k' k0); right; [exact Hin | now apply IH].
Qed.

(** ** [Publisher.__init__] *)

(** The entries of [producer_config] win over the defaults of the
    publisher, the servers of the argument included; a key that
    [producer_config] does not have keeps its default. *)
Theorem publisher_config_overrides (topic bootstrap_servers : string)
    (producer_config : Dict.t) (k : string) :
  NoDup (map fst producer_config) ->
  Dict.get k (Kafka.Publisher.producer_config
                (fst (Kafka.Publisher.__init__ topic bootstrap_servers
                                               (Some producer_config))))
  = match Dict.get k producer_config with
    | Some v => Some v
    | None =>
        Dict.get k [("bootstrap.servers", VStr bootstrap_servers);
                    ("enable.idempotence", VBool true)]%string
    end.
Proof.
  intros Hnd. unfold Kafka.Publisher.__init__. simpl. now apply get_update.
Qed.

Lemma publisher_config_overrides_witness :
  Dict.get "enable.idempotence"
    (Kafka.Publisher.producer_config
       (fst (Kafka.Publisher.__init__ "test.producer.config" "1.2.3.4:9092"
                                      (Some Sample.test_producer_config))))
  = Some (VBool false).
Proof.
  rewrite (@publisher_config_overrides "test.producer.config" "1.2.3.4:9092"
             Sample.test_producer_config "enable.idempotence").
  - reflexivity.
  - repeat constructor; simpl; intuition discriminate.
Defined.

(** ** [BasicProducer.__init__] *)

(** The two attributes agree with each other and with the arguments:
    [_bootstrap_servers] is the list that was passed in, extended by
    the servers of [producer_config]; the effective "bootstrap.servers"
    is its comma-join; under every other key [_producer_config] has
    what the caller's [producer_config] has, and nothing when the
    caller's has nothing. *)
Theorem init_attributes_agree (topic : string) (key : option string)
    (producer_config : option Dict.t) (cb : option DeliveryCallback)
    (servers : list string) (p : obj) :
  (forall d, producer_config = Some d -> NoDup (map fst d)) ->
  fst (__init__ topic (OfList servers) key producer_config cb) = inr p ->
  _bootstrap_servers p
  = servers ++ extra_servers (match producer_config with Some d => d | None => [] end)
  /\ Dict.get "bootstrap.servers" (_producer_config p)
     = Some (VStr (join "," (_bootstrap_servers p)))
  /\ (forall k, k <> "bootstrap.servers"%string ->
                Dict.get k (_producer_config p)
                = match producer_config with
                  | Some d => Dict.get k d
                  | None => None
                  end)
  /\ BasicProducer.topic p = topic /\ _key p = key.
Proof.
  intros Hd.
  assert (Hk : forall k, match producer_config with
                         | Some d => Dict.get k d
                         | None => None
                         end = Dict.get k (own_config producer_config)).
  { intros k. rewrite (ProduceFacts.own_config_given Hd).
    now destruct producer_config. }
  rewrite <- (ProduceFacts.own_config_given Hd).
  unfold __init__, combine, extra_servers.
  destruct (Dict.get "bootstrap.servers" (own_config producer_config)) as [v|] eqn:E.
  - destruct v; try discriminate. simpl. intros H; injection H as <-. simpl.
    repeat split; [apply get_set_same|].
    intros k Hne. rewrite Hk. apply get_set_other. congruence.
  - simpl. intros H; injection H as <-. simpl. rewrite app_nil_r.
    repeat split; [apply get_set_same|].
    intros k Hne. rewrite Hk. apply get_set_other. congruence.
Qed.

Lemma init_attributes_agree_witness :
  exists p,
    fst (__init__ "test.producer.config" (OfList ["1.2.3.4:9092"%string])
                  None (Some Sample.test_producer_config) None) = inr p
    /\ _bootstrap_servers p = ["1.2.3.4:9092"; "5.6.7.8:9092"]%string
    /\ Dict.get "acks" (_producer_config p) = Some (VInt 1).
Proof.
  eexists (mk _ _ _ _ _ _). split; [reflexivity|].
  destruct (@init_attributes_agree "test.producer.config" None
              (Some Sample.test_producer_config) None ["1.2.3.4:9092"%string]
              _ (fun d Hd =>
                   eq_ind Sample.test_producer_config
                          (fun x => NoDup (map fst x))
                          ltac:(repeat constructor; simpl; intuition discriminate)
                          d
                          (f_equal (fun o => match o with
                                             | Some x => x
                                             | None => Sample.test_producer_config
                                             end) Hd))
              eq_refl) as (Hs & _ & Hk & _).
  split; [exact Hs|].
  rewrite Hk; [reflexivity | discriminate].
Defined.

(** The list of servers is extended in place: a second producer built
    from the same list and the same configuration gets the servers of
    the configuration twice. *)
Theorem init_extends_the_list_again (topic topic' : string)
    (key key' : option string) (pc : Dict.t) (cb cb' : option DeliveryCallback)
    (servers : list string) (s : string) (p : obj) :
  Dict.get "bootstrap.servers" (Dict.update [] pc) = Some (VStr s) ->
  fst (__init__ topic (OfList servers) key (Some pc) cb) = inr p ->
  exists p',
    fst (__init__ topic' (OfList (_bootstrap_servers p)) key' (Some pc) cb') = inr p'
    /\ _bootstrap_servers p' = servers ++ split "," s ++ split "," s
    /\ Dict.get "bootstrap.servers" (_producer_config p')
       = Some (VStr (join "," (servers ++ split "," s ++ split "," s))).
Proof.
  intros Hget Hp.
  assert (Hs : _bootstrap_servers p = servers ++ split "," s).
  { revert Hp. unfold __init__, combine, own_config. rewrite Hget. simpl.
    now intros H; injection H as <-. }
  rewrite Hs.
  pose proof (ProduceFacts.init_of_list topic' key' (Some pc) cb' (servers ++ split "," s)) as H.
  unfold own_config, extra_servers in H. rewrite Hget in H.
  destruct H as (p' & Hp' & Hval).
  exists p'. rewrite Hp'. split; [reflexivity|].
  rewrite <- app_assoc in Hval. split; [|exact Hval].
  revert Hp'. unfold __init__, combine, own_config. rewrite Hget. simpl.
  intros H; injection H as <-. simpl. now rewrite <- app_assoc.
Qed.

Lemma init_extends_the_list_again_witness :
  exists p',
    fst (__init__ "second.topic" (OfList ["1.2.3.4:9092"; "5.6.7.8:9092"]%string)
                  None (Some Sample.test_producer_config) None) = inr p'
    /\ Dict.get "bootstrap.servers" (_producer_config p')
       = Some (VStr "1.2.3.4:9092,5.6.7.8:9092,5.6.7.8:9092").
Proof.
  destruct (@init_extends_the_list_again "test.producer.config" "second.topic"
              None None Sample.test_producer_config None None
              ["1.2.3.4:9092"%string] "5.6.7.8:9092"%string
              (mk "test.producer.config" ["1.2.3.4:9092"; "5.6.7.8:9092"]%string None
                  [("bootstrap.servers", VStr "1.2.3.4:9092,5.6.7.8:9092");
                   ("acks", VInt 1);
                   ("enable.idempotence", VBool false);
                   ("request.timeout.ms", VInt 5000)]%string
                  default_delivery_report false)
              eq_refl eq_refl) as (p' & Hp' & _ & Hval).
  exists p'. split; [exact Hp' | exact Hval].
Defined.

Lemma init_combines_servers_witness :
  exists p,
    fst (__init__ "test.producer.config" (OfList ["1.2.3.4:9092"%string])
                  None (Some Sample.test_producer_config) None) = inr p
    /\ Dict.get "bootstrap.servers" (_producer_config p)
       = Some (VStr "1.2.3.4:9092,5.6.7.8:9092").
Proof.
  apply (@ProduceFacts.init_combines_servers "test.producer.config" None None
           ["1.2.3.4:9092"%string] Sample.test_producer_config "5.6.7.8:9092"%string).
  - discriminate.
  - reflexivity.
Defined.

End ProducerFacts.

Module ProducingFacts.

Import Py Produce Produce.BasicProducer PyStr PyStrFacts DictFacts Producing.

(** ** [BasicProducer.__str__] *)

(** Every entry of the configuration under a key other than
    "sasl.password" is shown as it is, whether a password is masked or
    not. *)
Theorem str_shows_other_entries (self : obj) (k : string) (v : PyVal) :
  In (k, v) (_producer_config self) ->
  k <> masked_key ->
  Substring (PyStr.repr k ++ ": " ++ Py.repr v)%string (__str__ self).
Proof.
  intros Hin Hk.
  eapply Substring_trans; [|apply ProduceFacts.config_in_str].
  apply ProduceFacts.entry_in_repr.
  unfold safe_config, Dict.copy.
  destruct (Dict.mem masked_key (_producer_config self)); [|exact Hin].
  now apply ProducerFacts.In_set_other.
Qed.

Lemma str_shows_other_entries_witness :
  Substring "'bootstrap.servers': '1.2.3.4:9092'" (__str__ Sample.redacted_producer).
Proof.
  apply (@str_shows_other_entries Sample.redacted_producer
           "bootstrap.servers"%string (VStr "1.2.3.4:9092")).
  - simpl. auto.
  - discriminate.
Defined.

(** ** [BasicProducer.produce] *)

Lemma produced_app (a b : list Call) :
  produced (a ++ b) = produced a ++ produced b.
Proof.
  induction a as [|c a IH]; simpl; [reflexivity|].
  destruct c; simpl; now rewrite IH.
Qed.

Section Serializer.

Variable serializer : PyVal -> result Kafka.bytes.
Variable self : obj.

(** The three calls of a [produce] that succeeds. *)
Let calls_of (sent : PyVal * Kafka.bytes) : list Call :=
  [LoggerDebugProducing (BasicProducer.topic self) (_key self) (fst sent);
   ProducerProduce (BasicProducer.topic self) (_key self) (snd sent) (on_delivery self);
   ProducerPoll].

Lemma produce_all_good (messages : list PyVal) (sent : list Kafka.bytes) :
  Forall2 (fun m payload => serializer m = inr payload) messages sent ->
  produce_all serializer self messages
  = (None, flat_map calls_of (List.combine messages sent)).
Proof.
  induction 1 as [|m payload messages sent Hm _ IH]; [reflexivity|].
  simpl. unfold produce. rewrite Hm, IH. reflexivity.
Qed.

Lemma produce_all_fault (good rest : list PyVal) (sent : list Kafka.bytes)
    (bad : PyVal) (e : PyExc) :
  Forall2 (fun m payload => serializer m = inr payload) good sent ->
  serializer bad = inl e ->
  produce_all serializer self (good ++ bad :: rest)
  = (Some e,
     flat_map calls_of (List.combine good sent)
     ++ [LoggerDebugProducing (BasicProducer.topic self) (_key self) bad]).
Proof.
  intros Hgood Hbad.
  induction Hgood as [|m payload good sent Hm _ IH].
  - simpl. unfold produce. now rewrite Hbad.
  - simpl. unfold produce. rewrite Hm, IH. reflexivity.
Qed.

(** Messages that serialize: the calls made are, for each message in
    the order of the calls to [produce], the debug record of the
    message, then [produce] of the client with the producer's topic,
    its key, the serialized message and its delivery callback, then
    one [poll(0)]; nothing else is called and nothing is raised. *)
Theorem produce_all_in_order (messages : list PyVal) (sent : list Kafka.bytes) :
  Forall2 (fun m payload => serializer m = inr payload) messages sent ->
  produce_all serializer self messages
  = (None,
     flat_map (fun sent =>
                 [LoggerDebugProducing (BasicProducer.topic self) (_key self) (fst sent);
                  ProducerProduce (BasicProducer.topic self) (_key self) (snd sent)
                                  (on_delivery self);
                  ProducerPoll])
              (List.combine messages sent)).
Proof.
  intros H. exact (produce_all_good H).
Qed.

(** A message that the serializer refuses raises out of [produce] after
    its debug record and before the client is called: the messages
    before it have had their three calls each, that one has its debug
    record only, and nothing is called for the ones after it. *)
Theorem produce_all_until_first_fault (good rest : list PyVal)
    (sent : list Kafka.bytes) (bad : PyVal) (e : PyExc) :
  Forall2 (fun m payload => serializer m = inr payload) good sent ->
  serializer bad = inl e ->
  produce_all serializer self (good ++ bad :: rest)
  = (Some e,
     flat_map (fun sent =>
                 [LoggerDebugProducing (BasicProducer.topic self) (_key self) (fst sent);
                  ProducerProduce (BasicProducer.topic self) (_key self) (snd sent)
                                  (on_delivery self);
                  ProducerPoll])
              (List.combine good sent)
     ++ [LoggerDebugProducing (BasicProducer.topic self) (_key self) bad]).
Proof.
  intros Hgood Hbad. exact (produce_all_fault rest Hgood Hbad).
Qed.

End Serializer.

Lemma produce_all_in_order_witness :
  produce_all Sample.dumps Sample.redacted_producer
    [VTuple [VStr "start"; VDict [(VStr "uid", VStr "a1")]];
     VTuple [VStr "stop"; VDict [(VStr "exit_status", VStr "success")]]]
  = (None,
     [LoggerDebugProducing "test.redact.password" (Some "test.redact.password")
        (VTuple [VStr "start"; VDict [(VStr "uid", VStr "a1")]]);
      ProducerProduce "test.redact.password" (Some "test.redact.password") [x00]
                      default_delivery_report;
      ProducerPoll;
      LoggerDebugProducing "test.redact.password" (Some "test.redact.password")
        (VTuple [VStr "stop"; VDict [(VStr "exit_status", VStr "success")]]);
      ProducerProduce "test.redact.password" (Some "test.redact.password") [x02]
                      default_delivery_report;
      ProducerPoll])%string%byte.
Proof.
  apply (@produce_all_in_order Sample.dumps Sample.redacted_producer
           [VTuple [VStr "start"; VDict [(VStr "uid", VStr "a1")]];
            VTuple [VStr "stop"; VDict [(VStr "exit_status", VStr "success")]]]
           [[x00]; [x02]]%byte).
  repeat constructor.
Defined.

Lemma produce_all_until_first_fault_witness :
  produce_all Sample.dumps Sample.redacted_producer
    [VTuple [VStr "start"; VDict [(VStr "uid", VStr "a1")]];
     VNone;
     VTuple [VStr "stop"; VDict [(VStr "exit_status", VStr "success")]]]
  = (Some (mkExc (UserError "PicklingError") "cannot pickle object"),
     [LoggerDebugProducing "test.redact.password" (Some "test.redact.password")
        (VTuple [VStr "start"; VDict [(VStr "uid", VStr "a1")]]);
      ProducerProduce "test.redact.password" (Some "test.redact.password") [x00]
                      default_delivery_report;
      ProducerPoll;
      LoggerDebugProducing "test.redact.password" (Some "test.redact.password") VNone])%string%byte.
Proof.
  apply (@produce_all_until_first_fault Sample.dumps Sample.redacted_producer
           [VTuple [VStr "start"; VDict [(VStr "uid", VStr "a1")]]]
           [VTuple [VStr "stop"; VDict [(VStr "exit_status", VStr "success")]]]
           [[x00]]%byte VNone).
  - repeat constructor.
  - reflexivity.
Defined.

End ProducingFacts.

(* ===================================================================== *)
(** * More on the dispatcher *)
(* ===================================================================== *)

Module DispatcherFacts.

Import Py Kafka Kafka.RemoteDispatcher DictFacts KafkaFacts.

(** ** [RemoteDispatcher.__init__] *)

(** The arguments win over [consumer_config]: the client is built with
    the servers and the offset policy of the arguments, with the group
    of the argument when there is one, and with every other entry of
    [consumer_config] as it is. *)
Theorem init_arguments_override (U : Type) (topics : list string)
    (bootstrap_servers : PyVal) (group_id : option string)
    (auto_offset_reset : string) (consumer_config : option Dict.t)
    (subscribers0 : U) :
  exists cfg,
    snd (__init__ topics bootstrap_servers group_id auto_offset_reset
                  consumer_config subscribers0)
    = [LoggerInfoConfig cfg; LoggerInfoTopics topics; NewConsumer cfg;
       Subscribe topics]
    /\ Dict.get "bootstrap.servers" cfg = Some bootstrap_servers
    /\ Dict.get "auto.offset.reset" cfg = Some (VStr auto_offset_reset)
    /\ Dict.get "group.id" cfg
       = match group_id with
         | Some g => Some (VStr g)
         | None => Dict.get "group.id"
                            (match consumer_config with Some c => c | None => [] end)
         end
    /\ forall k, k <> "bootstrap.servers"%string ->
                 k <> "auto.offset.reset"%string ->
                 k <> "group.id"%string ->
                 Dict.get k cfg
                 = Dict.get k (match consumer_config with Some c => c | None => [] end).
Proof.
  unfold __init__. eexists. split; [reflexivity|].
  set (cfg0 := match consumer_config with Some c => c | None => [] end).
  change (Dict.update cfg0 [("bootstrap.servers"%string, bootstrap_servers);
                            ("auto.offset.reset"%string, VStr auto_offset_reset)])
    with (Dict.set "auto.offset.reset" (VStr auto_offset_reset)
                   (Dict.set "bootstrap.servers" bootstrap_servers cfg0)).
  destruct group_id as [g|].
  - repeat split.
    + rewrite !get_set_other by discriminate. apply get_set_same.
    + rewrite get_set_other by discriminate. apply get_set_same.
    + apply get_set_same.
    + intros k H1 H2 H3. rewrite !get_set_other by congruence. reflexivity.
  - repeat split.
    + rewrite get_set_other by discriminate. apply get_set_same.
    + apply get_set_same.
    + rewrite !get_set_other by discriminate. reflexivity.
    + intros k H1 H2 H3. rewrite !get_set_other by congruence. reflexivity.
Qed.

Lemma init_arguments_override_witness :
  exists cfg,
    snd (__init__ ["exp.topic"%string] (VStr "localhost:9092") (Some "exp.group"%string)
                  "latest"
                  (Some [("bootstrap.servers", VStr "10.0.0.1:9092");
                         ("session.timeout.ms", VInt 6000)]%string)
                  (@nil (string * PyVal)))
    = [LoggerInfoConfig cfg; LoggerInfoTopics ["exp.topic"%string]; NewConsumer cfg;
       Subscribe ["exp.topic"%string]]
    /\ Dict.get "bootstrap.servers" cfg = Some (VStr "localhost:9092")
    /\ Dict.get "session.timeout.ms" cfg = Some (VInt 6000).
Proof.
  destruct (@init_arguments_override (list (string * PyVal)) ["exp.topic"%string]
              (VStr "localhost:9092") (Some "exp.group"%string) "latest"%string
              (Some [("bootstrap.servers", VStr "10.0.0.1:9092");
                     ("session.timeout.ms", VInt 6000)]%string) [])
    as (cfg & Hev & Hs & _ & _ & Hk).
  exists cfg. split; [exact Hev|]. split; [exact Hs|].
  rewrite Hk; [reflexivity | discriminate..].
Defined.

Section Collaborators.

Variable U : Type.
Variable deserializer : bytes -> result PyVal.
Variable DocumentNames : list string.
Variable process : U -> string -> PyVal -> U * option PyExc.
Variable broker : nat -> option Message.

Local Abbreviation handle := (handle deserializer DocumentNames process).
Local Abbreviation iteration := (iteration deserializer DocumentNames process broker).
Local Abbreviation _poll := (_poll deserializer DocumentNames process broker).
Local Abbreviation start := (start deserializer DocumentNames process broker).
Local Abbreviation call := (call deserializer DocumentNames process broker).
Local Abbreviation calls := (calls deserializer DocumentNames process broker).

(** ** What a run can hold *)

Lemma handle_counts (self self' : obj U) (msg : Message) (r : option PyExc)
    (events : list Event) :
  handle self msg = (r, self', events) ->
  List.length (filter is_deserialize events) = 1
  /\ List.length (filter is_process events) <= 1.
Proof.
  unfold RemoteDispatcher.handle.
  destruct (deserializer (value msg)) as [e|decoded].
  { intros H; injection H as <- <- <-. simpl. lia. }
  destruct (unpack_pair decoded) as [e|[name doc]].
  { intros H; injection H as <- <- <-. simpl. lia. }
  destruct (lookup_member DocumentNames name) as [e|member].
  { intros H; injection H as <- <- <-. simpl. lia. }
  destruct (process (subscribers self) member doc) as [u' raised].
  intros H; injection H as <- <- <-. simpl. lia.
Qed.

Lemma iteration_counts (self self' : obj U) (r : option PyExc)
    (events : list Event) :
  iteration self = (r, self', events) ->
  List.length (filter is_poll events) = 1
  /\ List.length (filter is_process events)
     <= List.length (filter is_deserialize events)
  /\ List.length (filter is_deserialize events) <= 1.
Proof.
  intros Hi. pose proof (iteration_inv _ _ _ _ _ Hi) as (_ & _ & rest & Hev & Hpoll & _).
  revert Hi. unfold RemoteDispatcher.iteration.
  destruct (broker (polls self)) as [msg|].
  - destruct (error msg) as [err|].
    + intros H; injection H as <- <- <-. simpl. lia.
    + destruct (handle (polled self) msg) as [[r' s'] ev'] eqn:Eh.
      intros H; injection H as <- <- <-.
      destruct (handle_inv _ _ _ _ _ Eh) as (_ & _ & Hp & _).
      destruct (handle_counts _ _ Eh) as (Hd & Hpr).
      simpl. rewrite Hp. simpl. lia.
  - intros H; injection H as <- <- <-. simpl. lia.
Qed.

Lemma _poll_counts (turns : nat) (self self' : obj U) (o : Outcome)
    (events : list Event) :
  _poll turns self = (o, self', events) ->
  List.length (filter is_process events)
  <= List.length (filter is_deserialize events)
  /\ List.length (filter is_deserialize events)
     <= List.length (filter is_poll events)
  /\ List.length (filter is_poll events) <= turns.
Proof.
  revert self self' o events.
  induction turns as [|turns IH]; intros self self' o events.
  - intros H; injection H as <- <- <-. simpl. lia.
  - rewrite _poll_S.
    destruct (iteration self) as [[r s] ev] eqn:Ei.
    destruct (iteration_counts _ Ei) as (Hp & Hpr & Hd).
    destruct r as [e|].
    + intros H; injection H as <- <- <-. lia.
    + destruct (RemoteDispatcher._poll _ _ _ _ turns s) as [[o' s'] ev'] eqn:Ep.
      destruct (IH _ _ _ _ Ep) as (H1 & H2 & H3).
      intros H; injection H as <- <- <-.
      rewrite !filter_app, !length_app. lia.
Qed.

(** Whatever the broker serves and whatever is raised, a call of
    [start] deserializes no more payloads than it has polled, calls
    [process] no more often than it has deserialized, and closes the
    client at most once. *)
Theorem start_counts (turns : nat) (self : obj U) :
  List.length (filter is_process (snd (start turns self)))
  <= List.length (filter is_deserialize (snd (start turns self)))
  /\ List.length (filter is_deserialize (snd (start turns self)))
     <= List.length (filter is_poll (snd (start turns self)))
  /\ List.length (filter is_poll (snd (start turns self))) <= turns
  /\ List.length (filter is_close (snd (start turns self))) <= 1.
Proof.
  unfold RemoteDispatcher.start.
  destruct (closed self); [simpl; lia|].
  destruct (RemoteDispatcher._poll _ _ _ _ turns self) as [[o s] ev] eqn:Ep.
  destruct (_poll_counts _ _ Ep) as (H1 & H2 & H3).
  destruct (_poll_inv _ _ _ _ _ _ Ep) as (_ & Hclose & _).
  destruct o as [|e|]; simpl; try (rewrite Hclose; simpl; lia).
  destruct (isinstance_Exception e); simpl.
  - rewrite !filter_app, !length_app, Hclose. simpl. lia.
  - rewrite Hclose. simpl. lia.
Qed.

(** ** [closed] and the client *)

Lemma call_closed_iff (c : Call) (self : obj U) :
  closed (snd (fst (call c self)))
  = closed self || existsb is_close (snd (call c self)).
Proof.
  destruct c as [turns|]; simpl.
  - unfold RemoteDispatcher.start.
    destruct (closed self) eqn:Hc; [simpl; now rewrite Hc|].
    destruct (RemoteDispatcher._poll _ _ _ _ turns self) as [[o s] ev] eqn:Ep.
    destruct (_poll_inv _ _ _ _ _ _ Ep) as (Hcs & Hclose & _).
    assert (Hno : existsb is_close ev = false).
    { clear -Hclose. induction ev as [|x ev IH]; [reflexivity|].
      simpl in *. destruct (is_close x); [discriminate | now apply IH]. }
    destruct o as [|e|]; simpl; try (rewrite Hno; congruence).
    destruct (isinstance_Exception e); simpl.
    + rewrite existsb_app. simpl. now rewrite orb_true_r.
    + rewrite Hno. congruence.
  - now rewrite orb_true_r.
Qed.

(** Along any sequence of calls of [start] and [stop], [closed] is true
    at the end exactly when it was true at the beginning or the client
    has been closed on the way. *)
Theorem closed_iff_client_closed (cs : list Call) (self : obj U) :
  closed (fst (calls cs self))
  = closed self || existsb is_close (snd (calls cs self)).
Proof.
  revert self. induction cs as [|c cs IH]; intros self.
  - simpl. now rewrite orb_false_r.
  - pose proof (call_closed_iff c self) as Hc.
    simpl. destruct (call c self) as [[o s] ev]. simpl in Hc.
    specialize (IH s). destruct (calls cs s) as [s' ev'] eqn:Ecs. simpl in IH.
    destruct o; simpl; try exact Hc;
      rewrite existsb_app, IH, Hc; now rewrite orb_assoc.
Qed.

Lemma calls_stop_cons (cs : list Call) (self : obj U) :
  calls (call_stop :: cs) self
  = (fst (calls cs (fst (stop self))), Close :: snd (calls cs (fst (stop self)))).
Proof.
  simpl. now destruct (RemoteDispatcher.calls _ _ _ _ cs _) as [s ev].
Qed.

Lemma calls_stops (n : nat) (self : obj U) :
  List.length (filter is_close (snd (calls (repeat call_stop n) self))) = n
  /\ polls (fst (calls (repeat call_stop n) self)) = polls self
  /\ closed (fst (calls (repeat call_stop n) self))
     = match n with 0 => closed self | S _ => true end.
Proof.
  revert self. induction n as [|n IH]; intros self; [now repeat split|].
  change (repeat call_stop (S n)) with (call_stop :: repeat call_stop n).
  rewrite calls_stop_cons. cbn [fst snd filter is_close List.length].
  destruct (IH (fst (stop self))) as (H1 & H2 & H3).
  rewrite H1, H2, H3. repeat split. now destruct n.
Qed.

(** [stop] has no guard: every call of it closes the client again. *)
Theorem stop_closes_every_time (n : nat) (self : obj U) :
  closed (fst (calls (repeat call_stop (S n)) self)) = true
  /\ List.length (filter is_close (snd (calls (repeat call_stop (S n)) self))) = S n
  /\ polls (fst (calls (repeat call_stop (S n)) self)) = polls self.
Proof.
  destruct (calls_stops (S n) self) as (H1 & H2 & H3). now repeat split.
Qed.

(** ** The subscribers *)

Lemma handle_untouched (self self' : obj U) (msg : Message) (r : option PyExc)
    (events : list Event) :
  handle self msg = (r, self', events) ->
  dispatched events = [] -> subscribers self' = subscribers self.
Proof.
  unfold RemoteDispatcher.handle.
  destruct (deserializer (value msg)) as [e|decoded].
  { now intros H; injection H as <- <- <-. }
  destruct (unpack_pair decoded) as [e|[name doc]].
  { now intros H; injection H as <- <- <-. }
  destruct (lookup_member DocumentNames name) as [e|member].
  { now intros H; injection H as <- <- <-. }
  destruct (process (subscribers self) member doc) as [u' raised].
  intros H; injection H as <- <- <-. discriminate.
Qed.

Lemma _poll_untouched (turns : nat) (self self' : obj U) (o : Outcome)
    (events : list Event) :
  _poll turns self = (o, self', events) ->
  dispatched events = [] -> subscribers self' = subscribers self.
Proof.
  revert self self' o events.
  induction turns as [|turns IH]; intros self self' o events.
  - now intros H; injection H as <- <- <-.
  - rewrite _poll_S. unfold RemoteDispatcher.iteration.
    destruct (broker (polls self)) as [msg|].
    + destruct (error msg) as [err|].
      * destruct (RemoteDispatcher._poll _ _ _ _ turns (polled self))
          as [[o' s'] ev'] eqn:Ep.
        intros H; injection H as <- <- <-. simpl. intros Hd.
        now rewrite (IH _ _ _ _ Ep Hd).
      * destruct (handle (polled self) msg) as [[r s] ev] eqn:Eh.
        destruct r as [e|].
        -- intros H; injection H as <- <- <-. simpl. intros Hd.
           now rewrite (handle_untouched _ _ Eh Hd).
        -- destruct (RemoteDispatcher._poll _ _ _ _ turns s) as [[o' s'] ev'] eqn:Ep.
           intros H; injection H as <- <- <-. simpl. rewrite dispatched_app.
           intros Hd. apply app_eq_nil in Hd. destruct Hd as [Hev Hev'].
           rewrite (IH _ _ _ _ Ep Hev'). now rewrite (handle_untouched _ _ Eh Hev).
    + destruct (RemoteDispatcher._poll _ _ _ _ turns (polled self))
        as [[o' s'] ev'] eqn:Ep.
      intros H; injection H as <- <- <-. simpl. intros Hd.
      now rewrite (IH _ _ _ _ Ep Hd).
Qed.

(** The state of the subscribers changes through [process] only: a
    call of [start] that has not called [process] leaves it as it was,
    whatever was polled, logged or raised. *)
Theorem subscribers_untouched_without_dispatch (turns : nat) (self : obj U) :
  dispatched (snd (start turns self)) = [] ->
  subscribers (snd (fst (start turns self))) = subscribers self.
Proof.
  unfold RemoteDispatcher.start.
  destruct (closed self); [reflexivity|].
  destruct (RemoteDispatcher._poll _ _ _ _ turns self) as [[o s] ev] eqn:Ep.
  destruct o as [|e|]; simpl; try apply (_poll_untouched _ _ Ep).
  destruct (isinstance_Exception e); simpl; [|apply (_poll_untouched _ _ Ep)].
  rewrite dispatched_app. intros Hd. apply app_eq_nil in Hd.
  now apply (_poll_untouched _ _ Ep).
Qed.

(** ** After a fault *)

(** A dispatcher that an exception has stopped is spent: a later call
    of [start] raises [RuntimeError] and adds nothing to what the first
    call did. *)
Theorem start_is_single_use (n : nat) (self self_n self_e : obj U)
    (events_n events_e : list Event) (msg : Message) (e : PyExc) :
  closed self = false ->
  _poll n self = (Running, self_n, events_n) ->
  broker (polls self_n) = Some msg ->
  error msg = None ->
  handle (polled self_n) msg = (Some e, self_e, events_e) ->
  isinstance_Exception e = true ->
  forall turns again, n < turns ->
    call (call_start again) (fst (stop self_e))
    = (Raised already_stopped, fst (stop self_e), [])
    /\ calls [call_start turns; call_start again] self
       = (fst (stop self_e), events_n ++ Poll :: events_e ++ [Close]).
Proof.
  intros Hc Hn Hb Herr Hh Hexc turns again Hlt.
  pose proof (@_poll_raises_at _ _ _ _ _ _ _ _ _ _ _ _ _ Hn Hb Herr Hh turns Hlt) as Hp.
  pose proof (@start_raised _ _ _ _ _ _ _ _ _ _ Hc Hp) as Hs. rewrite Hexc in Hs.
  assert (Hagain : start again (fst (stop self_e))
                   = (Raised already_stopped, fst (stop self_e), [])).
  { now apply start_closed. }
  split; [exact Hagain|].
  cbn [RemoteDispatcher.calls RemoteDispatcher.call].
  rewrite Hs, Hagain. cbn. rewrite app_nil_r, <- app_assoc. reflexivity.
Qed.

(** An exception that is not an instance of [Exception] leaves the
    dispatcher open, with the message that raised it used up: the
    client is not closed, and a later call of [start] begins with a
    poll for the result that comes next. *)
Theorem start_again_after_interrupt (n : nat) (self self_n self_e : obj U)
    (events_n events_e : list Event) (msg : Message) (e : PyExc) :
  closed self = false ->
  _poll n self = (Running, self_n, events_n) ->
  broker (polls self_n) = Some msg ->
  error msg = None ->
  handle (polled self_n) msg = (Some e, self_e, events_e) ->
  isinstance_Exception e = false ->
  forall turns again, n < turns ->
    start turns self = (Raised e, self_e, events_n ++ Poll :: events_e)
    /\ closed self_e = false
    /\ polls self_e = polls self + S n
    /\ filter is_close (events_n ++ Poll :: events_e) = []
    /\ exists rest, snd (start (S again) self_e) = Poll :: rest.
Proof.
  intros Hc Hn Hb Herr Hh Hexc turns again Hlt.
  pose proof (@_poll_raises_at _ _ _ _ _ _ _ _ _ _ _ _ _ Hn Hb Herr Hh turns Hlt) as Hp.
  pose proof (@start_raised _ _ _ _ _ _ _ _ _ _ Hc Hp) as Hs. rewrite Hexc in Hs.
  destruct (@_poll_inv _ _ _ _ _ _ _ _ _ _ Hn) as (Hcn & Hclose_n & Hpolls_n & Hrun).
  destruct (@handle_inv _ _ _ _ _ _ _ _ _ Hh) as (Hce & Hpe & _ & Hclose_e).
  assert (Hopen : closed self_e = false).
  { rewrite Hce. simpl. congruence. }
  split; [exact Hs|]. split; [exact Hopen|].
  split. { rewrite Hpe. simpl. rewrite Hpolls_n, (Hrun eq_refl). lia. }
  split. { rewrite filter_app. simpl. now rewrite Hclose_n, Hclose_e. }
  unfold RemoteDispatcher.start. rewrite Hopen, _poll_S.
  destruct (iteration self_e) as [[r s] ev] eqn:Ei.
  destruct (@iteration_inv _ _ _ _ _ _ _ _ _ Ei) as (_ & _ & rest & -> & _).
  destruct r as [e'|].
  - destruct (isinstance_Exception e'); simpl; eexists; reflexivity.
  - destruct (RemoteDispatcher._poll _ _ _ _ again s) as [[o s'] ev'].
    destruct o as [|e'|]; simpl; try (eexists; reflexivity).
    destruct (isinstance_Exception e'); simpl; eexists; reflexivity.
Qed.

End Collaborators.

Lemma start_is_single_use_witness :
  RemoteDispatcher.calls Sample.loads Sample.document_names Sample.keep
                         (Sample.serve Sample.faulty)
                         [call_start 3; call_start 5] Sample.fresh
  = (fst (stop {| closed := false; polls := 3;
                  subscribers := [("start", VDict [(VStr "uid", VStr "a1")])]%string |}),
     [Poll; Poll; Deserialize [x00]%byte;
      LoggerDebug "exp.topic" (VStr "start") (VDict [(VStr "uid", VStr "a1")]);
      Process "start" (VDict [(VStr "uid", VStr "a1")]);
      Poll; Deserialize [x09]%byte; Close]).
Proof.
  destruct (@start_is_single_use _ Sample.loads Sample.document_names Sample.keep
              (Sample.serve Sample.faulty) 2 Sample.fresh
              {| closed := false; polls := 2;
                 subscribers := [("start", VDict [(VStr "uid", VStr "a1")])]%string |}
              {| closed := false; polls := 3;
                 subscribers := [("start", VDict [(VStr "uid", VStr "a1")])]%string |}
              [Poll; Poll; Deserialize [x00]%byte;
               LoggerDebug "exp.topic" (VStr "start") (VDict [(VStr "uid", VStr "a1")]);
               Process "start" (VDict [(VStr "uid", VStr "a1")])]
              [Deserialize [x09]%byte]
              (Sample.message "exp.topic" [x09]%byte) Sample.malformed
              eq_refl eq_refl eq_refl eq_refl eq_refl eq_refl 3 5)
    as (_ & H).
  - lia.
  - exact H.
Defined.

Lemma start_again_after_interrupt_witness :
  exists self_e events,
    RemoteDispatcher.start Sample.loads Sample.document_names Sample.interrupt_at_stop
                           (Sample.serve Sample.two_runs) 4 Sample.fresh
    = (Raised Sample.interrupted, self_e, events)
    /\ closed self_e = false
    /\ polls self_e = 1.
Proof.
  destruct (@start_again_after_interrupt _ Sample.loads Sample.document_names
              Sample.interrupt_at_stop (Sample.serve Sample.two_runs)
              0 Sample.fresh Sample.fresh
              {| closed := false; polls := 1;
                 subscribers := [("stop", VDict [(VStr "exit_status", VStr "success")])]%string |}
              []
              [Deserialize [x02]%byte;
               LoggerDebug "exp.topic" (VStr "stop")
                           (VDict [(VStr "exit_status", VStr "success")]);
               Process "stop" (VDict [(VStr "exit_status", VStr "success")])]
              (Sample.message "exp.topic" [x02]%byte) Sample.interrupted
              eq_refl eq_refl eq_refl eq_refl eq_refl eq_refl 4 0)
    as (Hs & Hc & Hp & _).
  - lia.
  - eexists; eexists. split; [exact Hs|]. split; [exact Hc | exact Hp].
Defined.

Lemma subscribers_untouched_without_dispatch_witness :
  subscribers
    (snd (fst (RemoteDispatcher.start Sample.loads Sample.document_names Sample.keep
                 (Sample.serve [None; Some (Sample.message "exp.topic" [x03]%byte)])
                 4 Sample.fresh)))
  = subscribers Sample.fresh.
Proof.
  apply (@subscribers_untouched_without_dispatch _ Sample.loads Sample.document_names
           Sample.keep
           (Sample.serve [None; Some (Sample.message "exp.topic" [x03]%byte)])
           4 Sample.fresh).
  reflexivity.
Defined.

Lemma only_errors_keep_running_witness :
  exists self' events,
    RemoteDispatcher.start Sample.loads Sample.document_names Sample.keep
                           (Sample.serve [Some (Sample.broker_error "exp.topic"); None;
                                          Some (Sample.broker_error "exp.topic")])
                           5 Sample.fresh
    = (Running, self', events)
    /\ dispatched events = [].
Proof.
  apply (@only_errors_keep_running _ Sample.loads Sample.document_names Sample.keep
           (Sample.serve [Some (Sample.broker_error "exp.topic"); None;
                          Some (Sample.broker_error "exp.topic")])
           5 Sample.fresh).
  - intros i. do 3 (destruct i as [|i]; [reflexivity|]). destruct i; reflexivity.
  - reflexivity.
Defined.

Lemma published_document_is_processed_witness :
  In (Produce "exp.topic" VNone [x00]%byte)
     (snd (Publisher.__call__ Sample.dumps Sample.publisher (VStr "start")
                              (VDict [(VStr "uid", VStr "a1")]) VNone))
  /\ dispatched
       (snd (RemoteDispatcher.iteration
               Sample.loads Sample.document_names Sample.keep
               (Sample.serve [Some (Sample.message "exp.topic" [x00]%byte)])
               Sample.fresh))
     = [("start"%string, VDict [(VStr "uid", VStr "a1")])].
Proof.
  apply (@published_document_is_processed _ Sample.loads Sample.document_names
           Sample.keep (Sample.serve [Some (Sample.message "exp.topic" [x00]%byte)])
           Sample.dumps Sample.publisher "start"%string
           (VDict [(VStr "uid", VStr "a1")]) VNone [x00]%byte Sample.fresh
           (Sample.message "exp.topic" [x00]%byte)).
  - reflexivity.
  - reflexivity.
  - simpl. auto.
  - reflexivity.
  - reflexivity.
  - reflexivity.
Defined.

End DispatcherFacts.

(* ===================================================================== *)
(** * kafka.py: an interrupt inside the loop *)
(* ===================================================================== *)

Module InterruptFacts.

Import Py Kafka Kafka.RemoteDispatcher.

(** C2 at an interrupt.  A [KeyboardInterrupt] raised while the stop
    document is dispatched is not an instance of [Exception]: it leaves
    [start] through [except Exception:] without [stop] being called;
    the trace has no [Close] and [closed] is still false, where the
    specification, the docstring ("runs until interrupted") and the
    message of [already_stopped] have the client closed once and
    [closed] true before the fault reaches the caller. *)
Theorem interrupt_skips_cleanup :
  exists self' events,
    RemoteDispatcher.start Sample.loads Sample.document_names
                           Sample.interrupt_at_stop
                           (Sample.serve Sample.last_document) 3 Sample.fresh
    = (Raised Sample.interrupted, self', events)
    /\ isinstance_Exception Sample.interrupted = false
    /\ dispatched events
       = [("stop", VDict [(VStr "exit_status", VStr "success")])]%string
    /\ filter is_close events = []
    /\ closed self' = false.
Proof.
  eexists; eexists. split; [reflexivity|]. repeat split.
Qed.

End InterruptFacts.

(* ===================================================================== *)
(** * The publisher of the package root *)
(* ===================================================================== *)

Module PackagePublisherFacts.

Import Py Produce Produce.BasicProducer PyStr PyStrFacts DictFacts.

(** C5.  A publisher built with the servers [bootstrap_servers] and a
    [producer_config] that has the string [s] under "bootstrap.servers"
    has, in its effective configuration, the two joined by a comma, the
    servers of the argument first; with "1.2.3.4:9092" and
    "5.6.7.8:9092" that is "1.2.3.4:9092,5.6.7.8:9092". *)
Theorem package_publisher_combines_servers (topic bootstrap_servers : string)
    (key : option string) (producer_config : Dict.t)
    (cb : option DeliveryCallback) (s : string) :
  NoDup (map fst producer_config) ->
  Dict.get "bootstrap.servers" producer_config = Some (VStr s) ->
  exists p,
    PackagePublisher.__init__ topic bootstrap_servers key (Some producer_config) cb
    = (inr p, [LoggerDebug (_producer_config p);
               ConfluentProducer (_producer_config p)])
    /\ Dict.get "bootstrap.servers" (_producer_config p)
       = Some (VStr (bootstrap_servers ++ "," ++ s)).
Proof.
  intros Hnd Hs. unfold PackagePublisher.__init__.
  pose proof (ProduceFacts.init_of_list topic key (Some producer_config) cb
                (split "," bootstrap_servers)) as H.
  unfold own_config, extra_servers in H.
  rewrite (update_empty _ Hnd), Hs in H.
  destruct H as (p & Hp & Hv). exists p. split; [exact Hp|].
  rewrite Hv. f_equal. f_equal.
  rewrite join_app by apply split_inhabited.
  now rewrite !join_split.
Qed.

Lemma package_publisher_combines_servers_witness :
  exists p,
    PackagePublisher.__init__ "test.producer.config" "1.2.3.4:9092"
                              (Some "test.producer.config"%string)
                              (Some Sample.test_producer_config) None
    = (inr p, [LoggerDebug (_producer_config p);
               ConfluentProducer (_producer_config p)])
    /\ Dict.get "bootstrap.servers" (_producer_config p)
       = Some (VStr "1.2.3.4:9092,5.6.7.8:9092").
Proof.
  apply (@package_publisher_combines_servers "test.producer.config" "1.2.3.4:9092"
           (Some "test.producer.config"%string) Sample.test_producer_config None
           "5.6.7.8:9092"%string).
  - repeat constructor; simpl; intuition discriminate.
  - reflexivity.
Defined.

End PackagePublisherFacts.

(* ===================================================================== *)
(** * The consumer of the specification *)
(* ===================================================================== *)

Module ConsumerFacts.

Import Py Kafka Consumer.




Section Core.

Variable D : Type.
Variable U : Type.
Variable decode : bytes -> result D.
Variable handler : obj -> string -> D -> U -> U * option PyExc.
Variable continue_polling : U -> bool.
Variable broker : nat -> option Message.

Local Abbreviation iteration := (Consumer.iteration decode handler continue_polling broker).
Local Abbreviation loop := (Consumer.loop decode handler continue_polling broker).
Local Abbreviation start := (Consumer.start decode handler continue_polling broker).
Local Abbreviation documents := (Consumer.documents decode).



End Core.

Section Documents.

Variable U : Type.
Variable decode : bytes -> result (string * PyVal).
Variable handler : obj -> string -> string -> PyVal -> U -> U * option PyExc.
Variable continue_polling : U -> bool.
Variable broker : nat -> option Message.

(** C8.  A valid message whose value decodes to a pair (name, document)
    is dispatched in the turn that polled it, after the one poll of the
    turn and before anything else is polled: the handler is called with
    the consumer, the topic of the message, the name and the document,
    and what it does to the caller's state and whether it raises are
    what the turn does. *)
Theorem consumer_dispatches_document (self : obj) (u : U) (msg : Message)
    (name : string) (doc : PyVal) :
  broker (polls self) = Some msg ->
  error msg = None ->
  decode (value msg) = inr (name, doc) ->
  exists step rest,
    Consumer.iteration decode (document_handler handler) continue_polling broker self u
    = (step, polled self,
       fst (handler (polled self) (topic msg) name doc u),
       [Poll; Decode (value msg); Dispatch (topic msg) (name, doc)] ++ rest)
    /\ step = match snd (handler (polled self) (topic msg) name doc u) with
              | Some e => Fault e
              | None =>
                  if continue_polling (fst (handler (polled self) (topic msg) name doc u))
                  then Next else Exit
              end
    /\ filter is_poll rest = []
    /\ dispatched rest = [].
Proof.
  intros Hb Herr Hv. unfold Consumer.iteration, document_handler.
  rewrite Hb, Herr, Hv. cbn [fst snd].
  destruct (handler (polled self) (topic msg) name doc u) as [u1 [e|]]; cbn [fst snd].
  - exists (Fault e), []. now rewrite app_nil_r.
  - eexists _, _. split; [reflexivity|]. now repeat split.
Qed.

End Documents.


Lemma consumer_dispatches_document_witness :
  exists step rest,
    Consumer.iteration SampleConsumer.decode (document_handler SampleConsumer.store)
                       (SampleConsumer.until_count 3)
                       (Sample.serve Sample.last_document) SampleConsumer.fresh []
    = (step, polled SampleConsumer.fresh,
       [("exp.topic", "stop", VDict [(VStr "exit_status", VStr "success")])]%string,
       [Poll; Decode [x02]%byte;
        Dispatch "exp.topic" ("stop"%string, VDict [(VStr "exit_status", VStr "success")])]
       ++ rest).
Proof.
  destruct (@consumer_dispatches_document _ SampleConsumer.decode SampleConsumer.store
              (SampleConsumer.until_count 3) (Sample.serve Sample.last_document)
              SampleConsumer.fresh [] (Sample.message "exp.topic" [x02]%byte)
              "stop"%string (VDict [(VStr "exit_status", VStr "success")])
              eq_refl eq_refl eq_refl)
    as (step & rest & H & _).
  exists step, rest. exact H.
Defined.

End ConsumerFacts.
